(** * Besu cloud network setup: a model of [deployment/cloud/setup.py]

    The script generates validator keys, a genesis file whose [extraData]
    embeds the validator addresses, per-node key files and one Docker Compose
    file per node.  Each function of the script is embedded below under its
    own name; file writes and exceptions are threaded through a small
    state-and-error monad, the random source is an explicit tape, and the
    key library ([eth_keys], [eth_utils]) is a parameter of the model. *)

From Stdlib Require Import String Ascii List ZArith Lia Bool Arith DecimalString DecimalPos.
Import ListNotations.
Local Open Scope string_scope.
Set Warnings "-register-all".

(** ** Python strings *)

Module Py.

(** [s[n:]] *)
Fixpoint slice_from (n : nat) (s : string) : string :=
  match n, s with
  | O, _ => s
  | S n', String _ t => slice_from n' t
  | S _, EmptyString => EmptyString
  end.

(** [str.lower()] on ASCII text. *)
Definition lower_ascii (c : ascii) : ascii :=
  let n := nat_of_ascii c in
  if (65 <=? n)%nat && (n <=? 90)%nat then ascii_of_nat (n + 32) else c.

Fixpoint lower (s : string) : string :=
  match s with
  | EmptyString => EmptyString
  | String c t => String (lower_ascii c) (lower t)
  end.

(** [str(i)] for an integer, as an f-string prints it. *)
Definition str_of_Z (i : Z) : string :=
  match i with
  | Z0 => "0"
  | Zpos p => NilEmpty.string_of_uint (Pos.to_uint p)
  | Zneg p => "-" ++ NilEmpty.string_of_uint (Pos.to_uint p)
  end.

(** [l[k]]: a negative index counts from the end, out of range raises. *)
Definition index {A} (l : list A) (k : Z) : option A :=
  let n := Z.of_nat (List.length l) in
  if (0 <=? k)%Z then nth_error l (Z.to_nat k)
  else if (- n <=? k)%Z then nth_error l (Z.to_nat (n + k))
  else None.

(** [range(n)] *)
Definition range (n : Z) : list Z := map Z.of_nat (seq 0 (Z.to_nat n)).

(** [d[k] = v] on a dict, which keeps insertion order: an existing key keeps
    its place and takes the new value, a new key goes last. *)
Fixpoint dict_set {V} (k : string) (v : V) (d : list (string * V)) : list (string * V) :=
  match d with
  | [] => [(k, v)]
  | (k', v') :: d' =>
      if String.eqb k k' then (k', v) :: d' else (k', v') :: dict_set k v d'
  end.

End Py.

(** ** Hexadecimal text and bytes *)

(** A byte is an integer in [0, 256). *)
Definition bytes := list Z.

Definition hex_digit (d : Z) : ascii :=
  if (d <? 10)%Z then ascii_of_nat (48 + Z.to_nat d) else ascii_of_nat (87 + Z.to_nat d).

(** [bytes.hex()]: two lowercase digits per byte. *)
Fixpoint hex (bs : bytes) : string :=
  match bs with
  | [] => EmptyString
  | b :: t => String (hex_digit (b / 16)) (String (hex_digit (b mod 16)) (hex t))
  end.

Definition hex_value (c : ascii) : option Z :=
  let n := nat_of_ascii c in
  if (48 <=? n)%nat && (n <=? 57)%nat then Some (Z.of_nat (n - 48))
  else if (97 <=? n)%nat && (n <=? 102)%nat then Some (Z.of_nat (n - 87))
  else if (65 <=? n)%nat && (n <=? 70)%nat then Some (Z.of_nat (n - 55))
  else None.

Definition is_hex_digit (c : ascii) : bool :=
  match hex_value c with Some _ => true | None => false end.

Fixpoint all_hex (s : string) : bool :=
  match s with
  | EmptyString => true
  | String c t => is_hex_digit c && all_hex t
  end.

(** Reading hexadecimal text back, either case, two digits per byte. *)
Fixpoint unhex (s : string) : option bytes :=
  match s with
  | EmptyString => Some []
  | String _ EmptyString => None
  | String c1 (String c2 t) =>
      match hex_value c1, hex_value c2, unhex t with
      | Some h, Some l, Some bs => Some ((16 * h + l)%Z :: bs)
      | _, _, _ => None
      end
  end.

(** A textual address: [0x] and forty hexadecimal digits, as
    [to_checksum_address] returns it. *)
Definition is_address (a : string) : bool :=
  (String.length a =? 42)%nat && String.prefix "0x" a && all_hex (Py.slice_from 2 a).

(** The twenty bytes a textual address stands for. *)
Definition address_bytes (a : string) : option bytes := unhex (Py.slice_from 2 a).

(** A string of [0x] followed by hexadecimal digits only. *)
Definition is_hex_string (s : string) : bool :=
  String.prefix "0x" s && all_hex (Py.slice_from 2 s).

(** ** [create_extra_data] *)

Definition extra_data_header : string :=
  "0xf87ea00000000000000000000000000000000000000000000000000000000000000000f854".

Definition extra_data_trailer : string := "808400000000c0".

Definition create_extra_data (validator_addresses : list string) : string :=
  let extra_data := extra_data_header in
  let extra_data :=
    fold_left (fun extra_data addr => extra_data ++ "94" ++ Py.lower (Py.slice_from 2 addr))
              validator_addresses extra_data in
  extra_data ++ extra_data_trailer.

(** The loop of [create_extra_data] without its accumulator: what stands
    between the header and the trailer. *)
Fixpoint encoded_addresses (addrs : list string) : string :=
  match addrs with
  | [] => EmptyString
  | a :: addrs' => "94" ++ Py.lower (Py.slice_from 2 a) ++ encoded_addresses addrs'
  end.

(** The addresses of a list as 20-byte values, when all of them parse. *)
Fixpoint addresses_bytes (addrs : list string) : option (list bytes) :=
  match addrs with
  | [] => Some []
  | a :: addrs' =>
      match address_bytes a, addresses_bytes addrs' with
      | Some b, Some bs => Some (b :: bs)
      | _, _ => None
      end
  end.

(** The header and the trailer as bytes, and addresses behind their tag
    [0x94]. *)
Definition header_bytes : bytes :=
  ([248; 126; 160] ++ repeat 0 32 ++ [248; 84])%Z%list.

Definition trailer_bytes : bytes := [128; 132; 0; 0; 0; 0; 192]%Z.

Fixpoint tagged (bss : list bytes) : bytes :=
  match bss with
  | [] => []
  | b :: bss' => ((148%Z :: b) ++ tagged bss')%list
  end.

(** ** Decoding the extension field *)

(** An item of the length-prefixed nested-list encoding: a byte string or a
    list of items. *)
Inductive rlp : Type :=
  | RStr (payload : bytes)
  | RList (items : list rlp).

Definition be_int (bs : bytes) : Z := fold_left (fun acc b => (acc * 256 + b)%Z) bs 0%Z.

(** The first [n] bytes and the rest, when there are that many. *)
Definition take (n : Z) (bs : bytes) : option (bytes * bytes) :=
  if (Z.to_nat n <=? List.length bs)%nat
  then Some (firstn (Z.to_nat n) bs, skipn (Z.to_nat n) bs)
  else None.

(** Modelled from the spec: the decoder of the extension field is not in the
    repository (the consensus client reads the field); the spec calls the
    format a length-prefixed nested-list binary encoding, the consensus
    layer's canonical serialization.  [rlp_item] reads one item and returns
    what is left; a declared length that the input cannot supply fails. *)
Fixpoint rlp_item (fuel : nat) (bs : bytes) : option (rlp * bytes) :=
  match fuel with
  | O => None
  | S fuel' =>
      match bs with
      | [] => None
      | b :: rest =>
          if (b <? 128)%Z then Some (RStr [b], rest)
          else if (b <? 184)%Z then
            match take (b - 128) rest with
            | Some (payload, rest') => Some (RStr payload, rest')
            | None => None
            end
          else if (b <? 192)%Z then
            match take (b - 183) rest with
            | Some (len, rest1) =>
                match take (be_int len) rest1 with
                | Some (payload, rest2) => Some (RStr payload, rest2)
                | None => None
                end
            | None => None
            end
          else if (b <? 248)%Z then
            match take (b - 192) rest with
            | Some (payload, rest') =>
                match rlp_items fuel' payload with
                | Some items => Some (RList items, rest')
                | None => None
                end
            | None => None
            end
          else
            match take (b - 247) rest with
            | Some (len, rest1) =>
                match take (be_int len) rest1 with
                | Some (payload, rest2) =>
                    match rlp_items fuel' payload with
                    | Some items => Some (RList items, rest2)
                    | None => None
                    end
                | None => None
                end
            | None => None
            end
      end
  end
with rlp_items (fuel : nat) (bs : bytes) : option (list rlp) :=
  match fuel with
  | O => None
  | S fuel' =>
      match bs with
      | [] => Some []
      | _ :: _ =>
          match rlp_item fuel' bs with
          | Some (item, rest) =>
              match rlp_items fuel' rest with
              | Some items => Some (item :: items)
              | None => None
              end
          | None => None
          end
      end
  end.

Fixpoint addresses_of (items : list rlp) : option (list bytes) :=
  match items with
  | [] => Some []
  | RStr a :: items' =>
      if (List.length a =? 20)%nat then
        match addresses_of items' with
        | Some l => Some (a :: l)
        | None => None
        end
      else None
  | RList _ :: _ => None
  end.

(** Modelled from the spec: [decode], the inverse the spec requires of the
    encoder, absent from the repository.  The blob is one list whose first
    item is the 32-byte vanity and whose second item is the list of 20-byte
    validator addresses; nothing may follow the outer list. *)
Definition decode_extra_data (fuel : nat) (blob : string) : option (list bytes) :=
  if String.prefix "0x" blob then
    match unhex (Py.slice_from 2 blob) with
    | Some bs =>
        match rlp_item fuel bs with
        | Some (RList (RStr vanity :: RList vals :: _), []) =>
            if (List.length vanity =? 32)%nat then addresses_of vals else None
        | _ => None
        end
    | None => None
    end
  else None.

(** Fuel that suffices for a blob: every step of the decoder consumes a byte
    or enters a list. *)
Definition decode_fuel (blob : string) : nat := 2 * String.length blob + 2.

Definition decode (blob : string) : option (list bytes) :=
  decode_extra_data (decode_fuel blob) blob.

(** ** Data of the script *)

(** A validator, the dict [generate_validator_keys] builds. *)
Record validator : Type := {
  index : Z;
  address : string;
  private_key : string;
  public_key : string
}.

(** The consensus block of the genesis [config], stored under the key
    [consensus] names. *)
Record consensus_params : Type := {
  blockperiodseconds : Z;
  epochlength : Z;
  requesttimeoutseconds : Z
}.

Record genesis_config : Type := {
  chainId : Z;
  berlinBlock : Z;
  londonBlock : Z;
  shanghaiTime : Z;
  zeroBaseFee : bool;
  consensus_key : string;
  consensus_section : consensus_params
}.

(** The genesis dict; [alloc] maps an address (lowercase, no [0x]) to its
    balance, in insertion order. *)
Record genesis : Type := {
  config : genesis_config;
  nonce : string;
  timestamp : string;
  gasLimit : string;
  difficulty : string;
  contractSizeLimit : Z;
  mixHash : string;
  coinbase : string;
  alloc : list (string * string);
  extraData : string
}.

Inductive role : Type := Validator | RpcOnly.

(** A Docker Compose file: the holes of the script's two templates.
    [bootnodes] is the enode of the [--bootnodes] flag, [None] when the
    template's [bootnode_line] is empty. *)
Record compose_file : Type := {
  node : Z;
  node_role : role;
  deploy_to : string;
  rpc_api : string;
  bootnodes : option string
}.

(** A [pathlib] path below the script's directory, as its components. *)
Definition path : Type := list string.

(** What a written file holds; [json.dump] is not modelled further. *)
Inductive content : Type :=
  | Text (s : string)
  | GenesisJson (g : genesis)
  | ValidatorsJson (vs : list validator)
  | Compose (c : compose_file).

(** ** Effects: the random source, written files, exceptions *)

Inductive exn : Type :=
  | IndexError
  | InvalidKey.

Inductive result (A : Type) : Type :=
  | Ok (a : A)
  | Raise (e : exn).
Arguments Ok {A} a.
Arguments Raise {A} e.

(** [tape] is the random source, [cursor] how much of it has been drawn,
    [files] every write so far, oldest first. *)
Record world : Type := {
  tape : nat -> Z;
  cursor : nat;
  files : list (path * content)
}.

Definition M (A : Type) : Type := world -> result A * world.

Definition ret {A} (a : A) : M A := fun w => (Ok a, w).

Definition bind {A B} (c : M A) (k : A -> M B) : M B :=
  fun w =>
    match c w with
    | (Ok a, w') => k a w'
    | (Raise e, w') => (Raise e, w')
    end.

Definition raise {A} (e : exn) : M A := fun w => (Raise e, w).

Notation "x <- c ;; k" := (bind c (fun x => k))
  (at level 61, c at next level, right associativity).
Notation "c ;;; k" := (bind c (fun _ => k))
  (at level 61, right associativity).

(** [with open(path, "w") as f: f.write(c)] *)
Definition write_file (p : path) (c : content) : M unit :=
  fun w => (Ok tt, {| tape := tape w; cursor := cursor w; files := files w ++ [(p, c)] |}).

(** [os.urandom(n)] *)
Definition urandom (n : nat) : M bytes :=
  fun w => (Ok (map (fun k => (tape w k mod 256)%Z) (seq (cursor w) n)),
            {| tape := tape w; cursor := cursor w + n; files := files w |}).

(** [l[k]] where a missing entry raises [IndexError]. *)
Definition subscript {A} (l : list A) (k : Z) : M A :=
  match Py.index l k with
  | Some a => ret a
  | None => raise IndexError
  end.

(** [for x in l: body], with the loop's variables threaded as [s]. *)
Fixpoint for_each {A S} (l : list A) (s : S) (body : S -> A -> M S) : M S :=
  match l with
  | [] => ret s
  | x :: l' => s' <- body s x ;; for_each l' s' body
  end.

(** ** The key library and the configuration *)

(** [eth_keys] and [eth_utils], of which the script uses: the [PrivateKey]
    constructor, which derives the public key and may reject its argument
    ([None]); [PublicKey.to_address]; [to_checksum_address]. *)
Class EthKeys : Type := {
  private_key_to_public_key : bytes -> option bytes;
  public_key_to_address : bytes -> string;
  to_checksum_address : string -> string
}.

(** The module-level constants of the script. *)
Class Configuration : Type := {
  NUM_VALIDATORS : Z;
  CHAIN_ID : Z;
  INITIAL_BALANCE : string;
  NODE_IPS : list string
}.

Definition NUM_TOTAL_NODES `{Configuration} : Z := (NUM_VALIDATORS + 1)%Z.

(** The constants as the script ships them. *)
Definition shipped : Configuration := {|
  NUM_VALIDATORS := 4;
  CHAIN_ID := 1337;
  INITIAL_BALANCE := "0x1000000000000000000000";
  NODE_IPS := ["192.168.1.11"; "192.168.1.12"; "192.168.1.13"; "192.168.1.14"; "192.168.1.15"]
|}.

(** [PROJECT_DIR / "config"], [PROJECT_DIR / "docker-compose"] and the
    [/] of [pathlib]. *)
Definition CONFIG_DIR : path := ["config"].
Definition DOCKER_COMPOSE_DIR : path := ["docker-compose"].
Definition path_join (d : path) (f : string) : path := (d ++ [f])%list.

(** A run starts with nothing drawn and nothing written. *)
Definition fresh (t : nat -> Z) : world := {| tape := t; cursor := 0; files := [] |}.

(** The [k]-th block of 32 random bytes ahead of the cursor. *)
Definition draw (w : world) (k : nat) : bytes :=
  map (fun j => (tape w j mod 256)%Z) (seq (cursor w + 32 * k) 32).



Section Script.
Context `{EthKeys} `{Configuration}.

Definition create_genesis_config (consensus : string) (block_period : Z) : genesis := {|
  config := {|
    chainId := CHAIN_ID;
    berlinBlock := 0;
    londonBlock := 0;
    shanghaiTime := 0;
    zeroBaseFee := true;
    consensus_key := consensus;
    consensus_section := {|
      blockperiodseconds := block_period;
      epochlength := 30000;
      requesttimeoutseconds := 4
    |}
  |};
  nonce := "0x0";
  timestamp := "0x58ee40ba";
  gasLimit := "0x1FFFFFFFFFFFFF";
  difficulty := "0x1";
  contractSizeLimit := 99999999999;
  mixHash := "0x63746963616c2062797a616e74696e65206661756c7420746f6c6572616e6365";
  coinbase := "0x0000000000000000000000000000000000000000";
  alloc := [];
  extraData := "0x"
|}.

(** The world after [d] more random bytes, or with other files. *)
Definition advance (w : world) (d : nat) : world :=
  {| tape := tape w; cursor := cursor w + d; files := files w |}.

Definition with_files (w : world) (fs : list (path * content)) : world :=
  {| tape := tape w; cursor := cursor w; files := fs |}.

(** [keys.PrivateKey(seed)], raising when the library rejects the seed:
    the key's own bytes ([to_bytes()]) are the seed, its public key the
    library's. *)
Definition PrivateKey (seed : bytes) : M (bytes * bytes) :=
  match private_key_to_public_key seed with
  | Some pub => ret (seed, pub)
  | None => raise InvalidKey
  end.

Definition generate_validator_keys (num_validators : Z) : M (list validator) :=
  for_each (Py.range num_validators) [] (fun validators i =>
    seed <- urandom 32 ;;
    key <- PrivateKey seed ;;
    let address := to_checksum_address (public_key_to_address (snd key)) in
    ret (validators ++ [ {|
      index := i + 1;
      address := address;
      private_key := "0x" ++ hex (fst key);
      public_key := "0x" ++ hex (snd key)
    |} ])%list).

(** The public key of a seed the library accepts, and the validator the
    loop of [generate_validator_keys] builds from [i] and a seed. *)
Definition public_key_of (seed : bytes) : bytes :=
  match private_key_to_public_key seed with
  | Some pub => pub
  | None => []
  end.

Definition address_of (seed : bytes) : string :=
  to_checksum_address (public_key_to_address (public_key_of seed)).

Definition identity (i : Z) (seed : bytes) : validator := {|
  index := i + 1;
  address := address_of seed;
  private_key := "0x" ++ hex seed;
  public_key := "0x" ++ hex (public_key_of seed)
|}.

(** The validators [n] successive draws give. *)
Definition generated (w : world) (n : nat) : list validator :=
  map (fun k => identity (Z.of_nat k) (draw w k)) (seq 0 n).

(** The alloc key of an address: [v["address"][2:].lower()]. *)
Definition alloc_key (v : validator) : string := Py.lower (Py.slice_from 2 (address v)).

(** The genesis [save_node_files] builds before it writes anything.  The
    script calls [create_genesis_config(consensus)], so the block period is
    that function's default, 2. *)
Definition build_genesis (validators : list validator) (consensus : string) : genesis :=
  let genesis := create_genesis_config consensus 2 in
  let allocations :=
    fold_left (fun a v => Py.dict_set (alloc_key v) INITIAL_BALANCE a) validators (alloc genesis) in
  let validator_addresses := map address validators in
  {| config := config genesis;
     nonce := nonce genesis;
     timestamp := timestamp genesis;
     gasLimit := gasLimit genesis;
     difficulty := difficulty genesis;
     contractSizeLimit := contractSizeLimit genesis;
     mixHash := mixHash genesis;
     coinbase := coinbase genesis;
     alloc := allocations;
     extraData := create_extra_data validator_addresses |}.

Definition node_dir (i : Z) : path :=
  path_join (path_join CONFIG_DIR "keys") ("node" ++ Py.str_of_Z i).

(** The enode URL of a node: its public key without [0x], its address in
    [NODE_IPS], port 30303. *)
Definition enode_url (pubkey ip : string) : string :=
  "enode://" ++ Py.slice_from 2 pubkey ++ "@" ++ ip ++ ":30303".

Definition save_node_files (validators : list validator) (consensus : string) : M path :=
  let genesis := build_genesis validators consensus in
  let genesis_file := path_join CONFIG_DIR "genesis.json" in
  write_file genesis_file (GenesisJson genesis) ;;;
  for_each validators tt (fun _ v =>
    let node_dir := node_dir (index v) in
    write_file (path_join node_dir "key") (Text (Py.slice_from 2 (private_key v))) ;;;
    write_file (path_join node_dir "key.pub") (Text (public_key v)) ;;;
    write_file (path_join node_dir "address") (Text (address v)) ;;;
    ip <- subscript NODE_IPS (index v - 1) ;;
    write_file (path_join node_dir "enode") (Text (enode_url (public_key v) ip))) ;;;
  ret genesis_file.

Definition create_docker_compose_files (validators : list validator) (consensus : string)
  : M unit :=
  v0 <- subscript validators 0 ;;
  let bootnode_pubkey := public_key v0 in
  ip0 <- subscript NODE_IPS 0 ;;
  let bootnode_enode := enode_url bootnode_pubkey ip0 in
  let consensus_api := if String.eqb consensus "ibft2" then "IBFT" else "QBFT" in
  for_each validators tt (fun _ v =>
    let i := index v in
    node_ip <- subscript NODE_IPS (i - 1) ;;
    let bootnode_line := if (i =? 1)%Z then None else Some bootnode_enode in
    write_file (path_join DOCKER_COMPOSE_DIR ("node" ++ Py.str_of_Z i ++ ".yml"))
      (Compose {| node := i; node_role := Validator; deploy_to := node_ip;
                  rpc_api := consensus_api; bootnodes := bootnode_line |})) ;;;
  rpc_ip <- subscript NODE_IPS (NUM_TOTAL_NODES - 1) ;;
  write_file (path_join DOCKER_COMPOSE_DIR ("node" ++ Py.str_of_Z NUM_TOTAL_NODES ++ ".yml"))
    (Compose {| node := NUM_TOTAL_NODES; node_role := RpcOnly; deploy_to := rpc_ip;
                rpc_api := consensus_api; bootnodes := Some bootnode_enode |}).

(** The endpoint of node [i], and what the two loops write for a
    validator whose endpoint exists. *)
Definition endpoint (i : Z) : option string := Py.index NODE_IPS (i - 1).

Definition host (i : Z) : string :=
  match endpoint i with
  | Some ip => ip
  | None => EmptyString
  end.

Definition ip_of (v : validator) : string := host (index v).

Definition key_files (v : validator) : list (path * content) :=
  [ (path_join (node_dir (index v)) "key", Text (Py.slice_from 2 (private_key v)));
    (path_join (node_dir (index v)) "key.pub", Text (public_key v));
    (path_join (node_dir (index v)) "address", Text (address v));
    (path_join (node_dir (index v)) "enode", Text (enode_url (public_key v) (ip_of v))) ].

Definition compose_api (consensus : string) : string :=
  if String.eqb consensus "ibft2" then "IBFT" else "QBFT".

Definition validator_descriptor (boot consensus : string) (v : validator) : compose_file :=
  {| node := index v; node_role := Validator; deploy_to := ip_of v;
     rpc_api := compose_api consensus;
     bootnodes := if (index v =? 1)%Z then None else Some boot |}.

Definition validator_compose (boot consensus : string) (v : validator) : path * content :=
  (path_join DOCKER_COMPOSE_DIR ("node" ++ Py.str_of_Z (index v) ++ ".yml"),
   Compose (validator_descriptor boot consensus v)).

(** [bootnode_enode]: the enode of [validators[0]] at [NODE_IPS[0]]. *)
Definition bootnode_of (validators : list validator) : string :=
  match validators with
  | v0 :: _ => enode_url (public_key v0) (host 1)
  | [] => EmptyString
  end.

Definition rpc_descriptor (boot consensus : string) : compose_file :=
  {| node := NUM_TOTAL_NODES; node_role := RpcOnly; deploy_to := host NUM_TOTAL_NODES;
     rpc_api := compose_api consensus; bootnodes := Some boot |}.

Definition rpc_compose (boot consensus : string) : path * content :=
  (path_join DOCKER_COMPOSE_DIR ("node" ++ Py.str_of_Z NUM_TOTAL_NODES ++ ".yml"),
   Compose (rpc_descriptor boot consensus)).

Definition genesis_write (validators : list validator) (consensus : string) : path * content :=
  (path_join CONFIG_DIR "genesis.json", GenesisJson (build_genesis validators consensus)).

(** Everything a run writes for validators that all have an endpoint. *)
Definition artifacts (validators : list validator) (consensus : string) : list (path * content) :=
  (genesis_write validators consensus
   :: flat_map key_files validators
   ++ map (validator_compose (bootnode_of validators) consensus) validators
   ++ [ rpc_compose (bootnode_of validators) consensus;
        (["validators.json"], ValidatorsJson validators) ])%list.

Definition save_validators_json (validators : list validator) : M unit :=
  write_file ["validators.json"] (ValidatorsJson validators).

(** [main] from the point where the consensus has been chosen.  The prompts
    and the printed guide write no file, and the guide reads only entries
    of [NODE_IPS] that the Compose files have read before it. *)
Definition main (consensus : string) : M unit :=
  validators <- generate_validator_keys NUM_VALIDATORS ;;
  save_node_files validators consensus ;;;
  create_docker_compose_files validators consensus ;;;
  save_validators_json validators.

End Script.

(** ** The text of a Compose file *)

Definition nl : string := String (ascii_of_nat 10) EmptyString.
Definition dq : string := String (ascii_of_nat 34) EmptyString.

(** A [command:] entry, quoted as in the templates. *)
Definition flag (f : string) : string := "      - " ++ dq ++ f ++ dq.

Definition unlines (ls : list string) : string :=
  fold_right (fun l acc => l ++ nl ++ acc) EmptyString ls.

(** The host file a Compose file mounts as the node's private key, relative
    to the script's directory: the template line is
    [../config/keys/node{i}/key:/config/key]; the RPC template has none. *)
Definition mounted_key (c : compose_file) : option path :=
  match node_role c with
  | Validator => Some (path_join (node_dir (node c)) "key")
  | RpcOnly => None
  end.

(** [bootnode_line], without its newline: empty or the [--bootnodes] flag. *)
Definition bootnode_line (c : compose_file) : list string :=
  match bootnodes c with
  | None => []
  | Some enode => [flag ("--bootnodes=" ++ enode)]
  end.

Definition besu_opts : string :=
  "      - BESU_OPTS=-XX:MaxRAMPercentage=80.0 -XX:+UseG1GC -XX:MaxGCPauseMillis=100 -XX:+ParallelRefProcEnabled".

Definition compose_text (c : compose_file) : string :=
  let i := Py.str_of_Z (node c) in
  match node_role c with
  | Validator =>
      unlines (List.app [
        "# Besu Node " ++ i ++ " - Validator";
        "# Deploy to: " ++ deploy_to c;
        EmptyString;
        "services:";
        "  node" ++ i ++ ":";
        "    image: hyperledger/besu:24.1.1";
        "    container_name: besu-node" ++ i;
        "    network_mode: host";
        "    environment:";
        besu_opts;
        "    volumes:";
        "      - ./data:/data";
        "      - ../config/genesis.json:/config/genesis.json";
        "      - ../config/keys/node" ++ i ++ "/key:/config/key";
        "    command:";
        flag "--data-path=/data";
        flag "--genesis-file=/config/genesis.json";
        flag "--node-private-key-file=/config/key";
        flag "--rpc-http-enabled";
        flag ("--rpc-http-api=ETH,NET,WEB3,ADMIN,TXPOOL," ++ rpc_api c);
        flag "--rpc-http-host=0.0.0.0";
        flag "--rpc-http-port=8545";
        flag "--rpc-http-cors-origins=*";
        flag "--rpc-http-max-active-connections=50000";
        flag "--host-allowlist=*";
        flag ("--p2p-host=" ++ deploy_to c);
        flag "--p2p-port=30303";
        flag "--min-gas-price=0";
        flag "--profile=enterprise";
        flag "--data-storage-format=BONSAI";
        flag "--bonsai-limit-trie-logs-enabled=false";
        flag "--tx-pool=layered";
        flag "--tx-pool-layer-max-capacity=5000000" ]
        (List.app (bootnode_line c)
        [ "    restart: unless-stopped" ]))
  | RpcOnly =>
      unlines (List.app [
        "# Besu Node " ++ i ++ " - RPC Only";
        "# Deploy to: " ++ deploy_to c;
        EmptyString;
        "services:";
        "  node" ++ i ++ ":";
        "    image: hyperledger/besu:24.1.1";
        "    container_name: besu-node" ++ i ++ "-rpc";
        "    network_mode: host";
        "    environment:";
        besu_opts;
        "    volumes:";
        "      - ./data:/data";
        "      - ../config/genesis.json:/config/genesis.json";
        "    command:";
        flag "--data-path=/data";
        flag "--genesis-file=/config/genesis.json";
        flag "--rpc-http-enabled";
        flag ("--rpc-http-api=ETH,NET,WEB3,ADMIN,TXPOOL," ++ rpc_api c);
        flag "--rpc-http-host=0.0.0.0";
        flag "--rpc-http-port=8545";
        flag "--rpc-http-cors-origins=*";
        flag "--rpc-http-max-active-connections=100000";
        flag "--host-allowlist=*";
        flag ("--p2p-host=" ++ deploy_to c);
        flag "--p2p-port=30303" ]
        (List.app (bootnode_line c)
           [ flag "--min-gas-price=0";
             flag "--profile=enterprise";
             flag "--data-storage-format=BONSAI";
             flag "--tx-pool=layered";
             flag "--miner-enabled=false";
             "    restart: unless-stopped" ]))
  end.

(** The Compose files among the written files, oldest first. *)
Fixpoint descriptors (fs : list (path * content)) : list compose_file :=
  match fs with
  | [] => []
  | (_, Compose c) :: fs' => c :: descriptors fs'
  | _ :: fs' => descriptors fs'
  end.

Definition has_bootnodes (c : compose_file) : bool :=
  match bootnodes c with
  | Some _ => true
  | None => false
  end.

(** A validator with another private key. *)
Definition set_private_key (k : string) (v : validator) : validator :=
  {| index := index v; address := address v; private_key := k; public_key := public_key v |}.

(** ** Concrete runs *)

(** A stand-in for the key library that accepts every seed of 32 bytes, as
    the length check of [keys.PrivateKey] does; its public key repeats the
    seed and its address prints the first 20 bytes. *)
Definition sample_keys : EthKeys := {|
  private_key_to_public_key seed :=
    if (List.length seed =? 32)%nat then Some (seed ++ seed)%list else None;
  public_key_to_address pub := "0x" ++ hex (firstn 20 pub);
  to_checksum_address a := a
|}.

(** A stand-in that also rejects the zero key. *)
Definition strict_keys : EthKeys := {|
  private_key_to_public_key seed :=
    if (List.length seed =? 32)%nat && (0 <? be_int seed)%Z
    then Some (seed ++ seed)%list else None;
  public_key_to_address pub := "0x" ++ hex (firstn 20 pub);
  to_checksum_address a := a
|}.

(** Tapes: every byte zero; byte [j] is [j + 1]. *)
Definition zero_tape : nat -> Z := fun _ => 0%Z.
Definition counting_tape : nat -> Z := fun j => Z.of_nat (j + 1).

(** The shipped constants with another validator count or endpoint table. *)
Definition with_validators (n : Z) : Configuration := {|
  NUM_VALIDATORS := n;
  CHAIN_ID := 1337;
  INITIAL_BALANCE := "0x1000000000000000000000";
  NODE_IPS := ["192.168.1.11"; "192.168.1.12"; "192.168.1.13"; "192.168.1.14"; "192.168.1.15"]
|}.

Definition short_table : Configuration := {|
  NUM_VALIDATORS := 4;
  CHAIN_ID := 1337;
  INITIAL_BALANCE := "0x1000000000000000000000";
  NODE_IPS := ["192.168.1.11"; "192.168.1.12"; "192.168.1.13"]
|}.

(** Sample addresses, checksum-cased. *)
Definition addr1 : string := "0x5B38Da6a701c568545dCfcB03FcB875f56beddC4".
Definition addr2 : string := "0xAb8483F64d9C6d1EcF9b849Ae677dD3315835cb2".
Definition addr3 : string := "0x4B20993Bc481177ec7E8f571ceCaE8A9e22C02db".
Definition addr4 : string := "0x78731D3Ca6b7E34aC0F824c42a7cC18A495cabaB".
Definition addr5 : string := "0x617F2E2fD72FD9D5503197092aC168c91465E7f2".

(** Five addresses, and the validators of a run with five of them. *)
Definition five_addresses : list string := [addr1; addr2; addr3; addr4; addr5].

Definition five_validators : list validator :=
  @generated sample_keys (fresh counting_tape) 5.

(** ** Paths of the artifacts *)

(** The four key files of node [i], and its Compose file. *)
Definition key_paths (i : Z) : list path :=
  [ path_join (node_dir i) "key"; path_join (node_dir i) "key.pub";
    path_join (node_dir i) "address"; path_join (node_dir i) "enode" ].

Definition compose_path (i : Z) : path :=
  path_join DOCKER_COMPOSE_DIR ("node" ++ Py.str_of_Z i ++ ".yml").

(** ** [print_deployment_guide] *)

(** What has been printed, one string per call of [print], oldest first. *)
Definition console : Type := list string.

Definition print (s : string) (out : console) : console := (out ++ [s])%list.

(** [s * n] on a string. *)
Fixpoint str_times (s : string) (n : nat) : string :=
  match n with
  | O => EmptyString
  | S n' => s ++ str_times s n'
  end.

(** [range(a, b)] *)
Definition range_from (a b : Z) : list Z :=
  map (fun k => (a + Z.of_nat k)%Z) (seq 0 (Z.to_nat (b - a))).

(** The four lines of the guide for server [i] at [ip]. *)
Definition server_lines (i : Z) (ip : string) : list string :=
  [ "   Server " ++ Py.str_of_Z i ++ " (" ++ ip ++ "):";
    "     - config/genesis.json";
    "     - config/keys/node" ++ Py.str_of_Z i ++ "/";
    "     - docker-compose/node" ++ Py.str_of_Z i ++ ".yml" ].

Section Guide.
Context `{Configuration}.

(** The loop over the servers: the lookup in [NODE_IPS] comes first in
    each round, so a missing entry raises before the round prints. *)
Fixpoint guide_servers (ids : list Z) (out : console) : result unit * console :=
  match ids with
  | [] => (Ok tt, out)
  | i :: ids' =>
      match Py.index NODE_IPS (i - 1) with
      | Some ip => guide_servers ids' (out ++ server_lines i ip)%list
      | None => (Raise IndexError, out)
      end
  end.

Definition print_deployment_guide (out : console) : result unit * console :=
  let out := print (nl ++ str_times "=" 60) out in
  let out := print "DEPLOYMENT GUIDE" out in
  let out := print (str_times "=" 60) out in
  let out := print (nl ++ "1. Update NODE_IPS in this script with your server IPs") out in
  let out := print (nl ++ "2. Copy files to each server:") out in
  match guide_servers (range_from 1 (NUM_TOTAL_NODES + 1)) out with
  | (Raise e, out) => (Raise e, out)
  | (Ok _, out) =>
      let out := print (nl ++ "3. Start each node:") out in
      let out := print "   docker compose -f node1.yml up -d" out in
      let out := print (nl ++ "4. Check node status:") out in
      let out := print "   curl -X POST http://localhost:8545 \" out in
      let out := print "     -H 'Content-Type: application/json' \" out in
      let out := print ("     -d '{" ++ dq ++ "jsonrpc" ++ dq ++ ":" ++ dq ++ "2.0" ++ dq ++ ","
                        ++ dq ++ "method" ++ dq ++ ":" ++ dq ++ "eth_blockNumber" ++ dq ++ ","
                        ++ dq ++ "params" ++ dq ++ ":[],"
                        ++ dq ++ "id" ++ dq ++ ":1}'") out in
      let out := print (nl ++ str_times "=" 60) out in
      (Ok tt, out)
  end.

End Guide.

(** The constants of a configuration, with more entries at the end of
    [NODE_IPS]. *)
Definition extend_table (c : Configuration) (more : list string) : Configuration := {|
  NUM_VALIDATORS := @NUM_VALIDATORS c;
  CHAIN_ID := @CHAIN_ID c;
  INITIAL_BALANCE := @INITIAL_BALANCE c;
  NODE_IPS := (@NODE_IPS c ++ more)%list
|}.

(** * Properties *)

(** ** Strings *)

Lemma append_assoc (a b c : string) : (a ++ b) ++ c = a ++ (b ++ c).
Proof. induction a as [|x a IH]; simpl; [reflexivity | now rewrite IH]. Qed.

Lemma append_empty_r (a : string) : a ++ EmptyString = a.
Proof. induction a as [|x a IH]; simpl; [reflexivity | now rewrite IH]. Qed.

Lemma length_append (a b : string) :
  String.length (a ++ b) = String.length a + String.length b.
Proof. induction a as [|x a IH]; simpl; [reflexivity | now rewrite IH]. Qed.

Lemma length_lower (s : string) : String.length (Py.lower s) = String.length s.
Proof. induction s as [|x s IH]; simpl; [reflexivity | now rewrite IH]. Qed.

Lemma length_slice_from (n : nat) (s : string) :
  String.length (Py.slice_from n s) = String.length s - n.
Proof.
  revert s; induction n as [|n IH]; intros [|x s]; simpl; try reflexivity.
  apply IH.
Qed.

Lemma substring_prefix (a b : string) : substring 0 (String.length a) (a ++ b) = a.
Proof.
  induction a as [|x a IH]; simpl.
  - destruct b; reflexivity.
  - now rewrite IH.
Qed.

Lemma substring_all (b : string) : substring 0 (String.length b) b = b.
Proof. rewrite <- (append_empty_r b) at 2. apply substring_prefix. Qed.

Lemma substring_suffix (a b : string) :
  substring (String.length a) (String.length b) (a ++ b) = b.
Proof. induction a as [|x a IH]; simpl; [apply substring_all | exact IH]. Qed.

Lemma all_hex_append (a b : string) : all_hex (a ++ b) = all_hex a && all_hex b.
Proof.
  induction a as [|x a IH]; simpl; [reflexivity|].
  now rewrite IH, andb_assoc.
Qed.

Lemma hex_value_lower (c : ascii) : hex_value (Py.lower_ascii c) = hex_value c.
Proof. destruct c as [[] [] [] [] [] [] [] []]; reflexivity. Qed.

Lemma all_hex_lower (s : string) : all_hex (Py.lower s) = all_hex s.
Proof.
  induction s as [|x s IH]; simpl; [reflexivity|].
  unfold is_hex_digit. now rewrite hex_value_lower, IH.
Qed.

Lemma unhex_lower (s : string) : unhex (Py.lower s) = unhex s.
Proof.
  revert s.
  assert (P : forall s, unhex (Py.lower s) = unhex s
                        /\ forall c, unhex (Py.lower (String c s)) = unhex (String c s)).
  { induction s as [|x s [IH1 IH2]].
    - split; [reflexivity | intros c; reflexivity].
    - split; [apply IH2|].
      intros c. simpl. simpl in IH1.
      now rewrite !hex_value_lower, IH1. }
  intros s. apply P.
Qed.

Lemma unhex_append (s t : string) (a b : bytes) :
  unhex s = Some a -> unhex t = Some b -> unhex (s ++ t) = Some (a ++ b)%list.
Proof.
  revert s. induction a as [|x a IH]; intros s Hs Ht.
  - destruct s as [|c1 [|c2 s]]; simpl in Hs; try discriminate; [exact Ht|].
    destruct (hex_value c1), (hex_value c2), (unhex s); discriminate.
  - destruct s as [|c1 [|c2 s]]; simpl in Hs; try discriminate.
    simpl.
    destruct (hex_value c1), (hex_value c2); try discriminate.
    destruct (unhex s) as [bs|] eqn:E; try discriminate.
    injection Hs as <- <-.
    now rewrite (IH s E Ht).
Qed.

Lemma unhex_length (s : string) (a : bytes) :
  unhex s = Some a -> String.length s = 2 * List.length a.
Proof.
  revert s. induction a as [|x a IH]; intros s Hs.
  - destruct s as [|c1 [|c2 s]]; simpl in Hs; try discriminate; [reflexivity|].
    destruct (hex_value c1), (hex_value c2), (unhex s); discriminate.
  - destruct s as [|c1 [|c2 s]]; simpl in Hs; try discriminate.
    destruct (hex_value c1), (hex_value c2); try discriminate.
    destruct (unhex s) as [bs|] eqn:E; try discriminate.
    injection Hs as <- <-. simpl. rewrite (IH s E). lia.
Qed.

(** ** The shape of the extension field *)

Lemma create_extra_data_unfold (addrs : list string) :
  create_extra_data addrs = extra_data_header ++ encoded_addresses addrs ++ extra_data_trailer.
Proof.
  unfold create_extra_data.
  generalize extra_data_header as acc.
  induction addrs as [|a addrs IH]; intros acc.
  - reflexivity.
  - cbn [fold_left encoded_addresses]. rewrite IH.
    now rewrite !append_assoc.
Qed.

Lemma is_address_length (a : string) : is_address a = true -> String.length a = 42.
Proof.
  unfold is_address. intros Ha. apply andb_prop in Ha as [Ha _].
  apply andb_prop in Ha as [Ha _]. now apply Nat.eqb_eq.
Qed.

Lemma is_address_hex (a : string) : is_address a = true -> all_hex (Py.slice_from 2 a) = true.
Proof. unfold is_address. intros Ha. now apply andb_prop in Ha as [_ Ha]. Qed.

Lemma length_encoded_addresses (addrs : list string) :
  Forall (fun a => is_address a = true) addrs ->
  String.length (encoded_addresses addrs) = 42 * List.length addrs.
Proof.
  induction 1 as [|a addrs Ha _ IH]; [reflexivity|].
  cbn [encoded_addresses List.length].
  rewrite !length_append, length_lower, length_slice_from, IH, (is_address_length a Ha).
  simpl. lia.
Qed.

Lemma all_hex_encoded_addresses (addrs : list string) :
  Forall (fun a => is_address a = true) addrs ->
  all_hex (encoded_addresses addrs) = true.
Proof.
  induction 1 as [|a addrs Ha _ IH]; [reflexivity|].
  cbn [encoded_addresses].
  now rewrite !all_hex_append, all_hex_lower, (is_address_hex a Ha), IH.
Qed.

Lemma length_create_extra_data (addrs : list string) :
  Forall (fun a => is_address a = true) addrs ->
  String.length (create_extra_data addrs) = 90 + 42 * List.length addrs.
Proof.
  intros Hwf. rewrite create_extra_data_unfold.
  rewrite !length_append, (length_encoded_addresses addrs Hwf). simpl. lia.
Qed.

Lemma create_extra_data_is_hex (addrs : list string) :
  Forall (fun a => is_address a = true) addrs ->
  is_hex_string (create_extra_data addrs) = true.
Proof.
  intros Hwf. rewrite create_extra_data_unfold. unfold is_hex_string.
  change (extra_data_header ++ encoded_addresses addrs ++ extra_data_trailer)
    with ("0x" ++ (Py.slice_from 2 extra_data_header
                   ++ encoded_addresses addrs ++ extra_data_trailer)).
  cbn [String.prefix append Py.slice_from].
  simpl String.prefix.
  rewrite !all_hex_append, (all_hex_encoded_addresses addrs Hwf).
  reflexivity.
Qed.

(** C10: for every list of [n] addresses, the empty list included, the
    encoder returns a hex string of exactly [90 + 42 * n] characters; its
    first 76 characters are the fixed header (with the length prefixes
    [f87e] and [f854]) and its last 14 the fixed trailer, whatever [n] is. *)
Theorem create_extra_data_shape (addrs : list string) :
  Forall (fun a => is_address a = true) addrs ->
  let blob := create_extra_data addrs in
  String.length blob = 90 + 42 * List.length addrs
  /\ substring 0 76 blob = extra_data_header
  /\ substring (String.length blob - 14) 14 blob = extra_data_trailer
  /\ is_hex_string blob = true.
Proof.
  intros Hwf blob. subst blob.
  pose proof (length_encoded_addresses addrs Hwf) as Hlen.
  pose proof (length_create_extra_data addrs Hwf) as L.
  split; [exact L|]. split; [|split].
  - rewrite create_extra_data_unfold.
    change 76 with (String.length extra_data_header). apply substring_prefix.
  - rewrite L, create_extra_data_unfold, <- append_assoc.
    replace (90 + 42 * List.length addrs - 14)
      with (String.length (extra_data_header ++ encoded_addresses addrs))
      by (rewrite length_append, Hlen; simpl; lia).
    change 14 with (String.length extra_data_trailer).
    apply substring_suffix.
  - now apply create_extra_data_is_hex.
Qed.

(** ** Bytes of the extension field *)

Lemma unhex_inv (c1 c2 : ascii) (t : string) (bs : bytes) :
  unhex (String c1 (String c2 t)) = Some bs ->
  exists h l bs', hex_value c1 = Some h /\ hex_value c2 = Some l
                  /\ unhex t = Some bs' /\ bs = ((16 * h + l)%Z :: bs').
Proof.
  simpl. destruct (hex_value c1) as [h|], (hex_value c2) as [l|]; try discriminate.
  destruct (unhex t) as [bs'|]; try discriminate.
  intros [= <-]. now exists h, l, bs'.
Qed.

Lemma all_hex_unhex (k : nat) : forall s,
  all_hex s = true -> String.length s = 2 * k ->
  exists bs, unhex s = Some bs /\ List.length bs = k.
Proof.
  induction k as [|k IH]; intros s Hh Hl.
  - destruct s; [now exists [] | discriminate].
  - destruct s as [|c1 [|c2 s]]; simpl in Hl; try lia.
    simpl in Hh. apply andb_prop in Hh as [H1 Hh]. apply andb_prop in Hh as [H2 Hh].
    destruct (IH s Hh ltac:(lia)) as (bs & E & L).
    unfold is_hex_digit in H1, H2. simpl. rewrite E.
    destruct (hex_value c1) as [h|]; [|discriminate].
    destruct (hex_value c2) as [l|]; [|discriminate].
    eexists; split; [reflexivity | simpl; congruence].
Qed.

Lemma address_bytes_wf (a : string) :
  is_address a = true -> exists b, address_bytes a = Some b /\ List.length b = 20.
Proof.
  intros Ha. apply (all_hex_unhex 20).
  - now apply is_address_hex.
  - rewrite length_slice_from, (is_address_length a Ha). reflexivity.
Qed.

Lemma addresses_bytes_wf (addrs : list string) :
  Forall (fun a => is_address a = true) addrs ->
  exists bss, addresses_bytes addrs = Some bss
              /\ List.length bss = List.length addrs
              /\ Forall (fun b => List.length b = 20) bss.
Proof.
  induction 1 as [|a addrs Ha _ (bss & E & L & F)].
  - now exists [].
  - destruct (address_bytes_wf a Ha) as (b & Eb & Lb).
    exists (b :: bss). simpl. rewrite Eb, E. repeat split; auto.
Qed.

Lemma unhex_encoded_addresses (addrs : list string) (bss : list bytes) :
  addresses_bytes addrs = Some bss ->
  unhex (encoded_addresses addrs) = Some (tagged bss).
Proof.
  revert bss. induction addrs as [|a addrs IH]; intros bss E; simpl in E.
  - injection E as <-. reflexivity.
  - destruct (address_bytes a) as [b|] eqn:Eb; [|discriminate].
    destruct (addresses_bytes addrs) as [bs|]; [|discriminate].
    injection E as <-.
    cbn [encoded_addresses tagged].
    change ("94" ++ Py.lower (Py.slice_from 2 a) ++ encoded_addresses addrs)
      with (String "9" (String "4" (Py.lower (Py.slice_from 2 a) ++ encoded_addresses addrs))).
    cbn [unhex].
    rewrite (unhex_append _ _ b (tagged bs)); [reflexivity | | now apply IH].
    rewrite unhex_lower. exact Eb.
Qed.

(** The bytes the encoder's text stands for: the fixed header, each
    address behind its tag [0x94], the fixed trailer. *)
Lemma extra_data_bytes (addrs : list string) (bss : list bytes) :
  addresses_bytes addrs = Some bss ->
  unhex (Py.slice_from 2 (create_extra_data addrs))
  = Some (header_bytes ++ tagged bss ++ trailer_bytes)%list.
Proof.
  intros E. rewrite create_extra_data_unfold.
  change (Py.slice_from 2 (extra_data_header ++ encoded_addresses addrs ++ extra_data_trailer))
    with (Py.slice_from 2 extra_data_header ++ encoded_addresses addrs ++ extra_data_trailer).
  apply unhex_append; [reflexivity|].
  apply unhex_append; [now apply unhex_encoded_addresses | reflexivity].
Qed.

Lemma length_tagged (bss : list bytes) :
  Forall (fun b => List.length b = 20) bss ->
  List.length (tagged bss) = 21 * List.length bss.
Proof.
  induction 1 as [|b bss Hb _ IH]; [reflexivity|].
  cbn [tagged]. rewrite length_app. cbn [List.length]. rewrite Hb, IH. lia.
Qed.

(** The outer header [f8 7e] declares 126 bytes: a decoder that accepts
    the item and leaves nothing over has read exactly that many. *)
Lemma rlp_item_declared_length (fuel : nat) (rest : bytes) (item : rlp) :
  rlp_item fuel (248 :: 126 :: rest)%Z = Some (item, []) -> List.length rest = 126.
Proof.
  destruct fuel as [|fuel]; [discriminate|].
  cbn [rlp_item]. cbn [Z.ltb Z.compare Pos.compare Pos.compare_cont].
  change (take (248 - 247) (126 :: rest)%Z) with (Some ([126%Z], rest)).
  unfold take. remember (Z.to_nat (be_int [126%Z])) as k eqn:Hk.
  destruct (k <=? List.length rest)%nat eqn:E; [|discriminate].
  destruct (rlp_items fuel (firstn k rest)); [|discriminate].
  intros [= _ Hs].
  apply Nat.leb_le in E.
  pose proof (length_skipn k rest) as L. rewrite Hs in L.
  vm_compute in Hk. simpl in L. lia.
Qed.

Lemma decode_needs_four (fuel : nat) (addrs : list string) (r : list bytes) :
  Forall (fun a => is_address a = true) addrs ->
  decode_extra_data fuel (create_extra_data addrs) = Some r ->
  List.length addrs = 4.
Proof.
  intros Hwf. destruct (addresses_bytes_wf addrs Hwf) as (bss & E & L & F).
  unfold decode_extra_data. rewrite (extra_data_bytes addrs bss E).
  destruct (String.prefix "0x" (create_extra_data addrs)); [|discriminate].
  change (header_bytes ++ tagged bss ++ trailer_bytes)%list
    with (248 :: 126 :: ((160 :: repeat 0 32 ++ [248; 84]) ++ tagged bss ++ trailer_bytes))%Z%list.
  destruct (rlp_item fuel _) as [[item rest]|] eqn:R; [|discriminate].
  destruct rest; [|destruct item as [|[|[] [|[]]]]; discriminate].
  intros _. apply rlp_item_declared_length in R.
  rewrite !length_app, (length_tagged bss F), L in R. simpl in R. lia.
Qed.

Lemma length4 {A} (l : list A) :
  List.length l = 4 -> exists a b c d, l = [a; b; c; d].
Proof.
  destruct l as [|a [|b [|c [|d [|]]]]]; try discriminate. now exists a, b, c, d.
Qed.

(** A list of length 20, as its twenty elements. *)
Ltac twenty b H :=
  do 20 (destruct b as [|? b]; [discriminate H|]); destruct b; [clear H | discriminate H].

Lemma decode_four (addrs : list string) :
  Forall (fun a => is_address a = true) addrs ->
  List.length addrs = 4 ->
  decode (create_extra_data addrs) = addresses_bytes addrs.
Proof.
  intros Hwf Hn.
  destruct (addresses_bytes_wf addrs Hwf) as (bss & E & L & F).
  pose proof (length_create_extra_data addrs Hwf) as Hlen.
  pose proof (create_extra_data_is_hex addrs Hwf) as Hhex.
  unfold decode, decode_fuel, decode_extra_data.
  rewrite Hlen, Hn, E, (extra_data_bytes addrs bss E).
  unfold is_hex_string in Hhex. apply andb_prop in Hhex as [-> _].
  rewrite Hn in L. destruct (length4 bss L) as (b1 & b2 & b3 & b4 & ->).
  inversion F as [|? ? H1 F1]; subst. inversion F1 as [|? ? H2 F2]; subst.
  inversion F2 as [|? ? H3 F3]; subst. inversion F3 as [|? ? H4 _]; subst.
  twenty b1 H1. twenty b2 H2. twenty b3 H3. twenty b4 H4.
  vm_compute. reflexivity.
Qed.

(** ** Generation *)

Section Properties.
Context `{EthKeys} `{Configuration}.

Lemma draw_advance (w : world) (k : nat) : draw (advance w 32) k = draw w (S k).
Proof.
  unfold draw, advance; cbn [tape cursor].
  replace (cursor w + 32 + 32 * k) with (cursor w + 32 * S k) by lia. reflexivity.
Qed.

Lemma advance_advance (w : world) (a b : nat) : advance (advance w a) b = advance w (a + b).
Proof. unfold advance; cbn [tape cursor files]. now rewrite Nat.add_assoc. Qed.

Lemma urandom_draw (w : world) : urandom 32 w = (Ok (draw w 0), advance w 32).
Proof.
  unfold urandom, draw, advance.
  now rewrite Nat.mul_0_r, Nat.add_0_r.
Qed.

(** The loop of [generate_validator_keys] from any point: it either builds
    one validator per draw, or stops at the first draw the library rejects. *)
Lemma generate_loop (m : nat) : forall (a : nat) (acc : list validator) (w : world),
  match for_each (map Z.of_nat (seq a m)) acc (fun validators i =>
          seed <- urandom 32 ;;
          key <- PrivateKey seed ;;
          let address := to_checksum_address (public_key_to_address (snd key)) in
          ret (validators ++ [ {|
            index := i + 1;
            address := address;
            private_key := "0x" ++ hex (fst key);
            public_key := "0x" ++ hex (snd key)
          |} ])%list) w with
  | (Ok vs, w') =>
      (forall k, k < m -> private_key_to_public_key (draw w k) <> None)
      /\ vs = (acc ++ map (fun k => identity (Z.of_nat (a + k)) (draw w k)) (seq 0 m))%list
      /\ w' = advance w (32 * m)
  | (Raise e, w') =>
      e = InvalidKey
      /\ exists k, k < m
           /\ (forall j, j < k -> private_key_to_public_key (draw w j) <> None)
           /\ private_key_to_public_key (draw w k) = None
           /\ w' = advance w (32 * (k + 1))
  end.
Proof.
  induction m as [|m IH]; intros a acc w.
  - cbn. repeat split; [lia | now rewrite app_nil_r |].
    unfold advance. destruct w; cbn. f_equal. lia.
  - cbn [seq map for_each]. unfold bind at 1. unfold bind at 1.
    rewrite urandom_draw. unfold bind at 1. unfold PrivateKey at 1.
    destruct (private_key_to_public_key (draw w 0)) as [pub|] eqn:E.
    + cbn [ret fst snd].
      specialize (IH (S a)
        (acc ++ [ {| index := Z.of_nat a + 1;
                     address := to_checksum_address (public_key_to_address pub);
                     private_key := "0x" ++ hex (draw w 0);
                     public_key := "0x" ++ hex pub |} ])%list
        (advance w 32)).
      destruct (for_each _ _ _ (advance w 32)) as [[vs|e] w'].
      * destruct IH as (Hacc & -> & ->). repeat split.
        -- intros [|k] Hk; [congruence|].
           rewrite <- draw_advance. apply Hacc. lia.
        -- rewrite <- app_assoc. f_equal. cbn [app seq map]. f_equal.
           ++ unfold identity, address_of, public_key_of. rewrite E.
              now rewrite Nat.add_0_r.
           ++ rewrite <- seq_shift, map_map. apply map_ext. intros k.
              rewrite draw_advance. do 2 f_equal. lia.
        -- rewrite advance_advance. f_equal. lia.
      * destruct IH as (-> & k & Hk & Hbefore & Hk' & ->). split; [reflexivity|].
        exists (S k). repeat split.
        -- lia.
        -- intros [|j] Hj; [congruence|].
           rewrite <- draw_advance. apply Hbefore. lia.
        -- now rewrite <- draw_advance.
        -- rewrite advance_advance. f_equal. lia.
    + cbn [raise]. split; [reflexivity|]. exists 0. repeat split; auto; lia.
Qed.

Lemma generate_validator_keys_spec (n : Z) (w : world) :
  match generate_validator_keys n w with
  | (Ok vs, w') =>
      (forall k, k < Z.to_nat n -> private_key_to_public_key (draw w k) <> None)
      /\ vs = generated w (Z.to_nat n)
      /\ w' = advance w (32 * Z.to_nat n)
  | (Raise e, w') =>
      e = InvalidKey
      /\ exists k, k < Z.to_nat n
           /\ (forall j, j < k -> private_key_to_public_key (draw w j) <> None)
           /\ private_key_to_public_key (draw w k) = None
           /\ w' = advance w (32 * (k + 1))
  end.
Proof.
  unfold generate_validator_keys, Py.range.
  exact (generate_loop (Z.to_nat n) 0 [] w).
Qed.

(** ** Writing files *)

Lemma with_files_id (w : world) : with_files w (files w) = w.
Proof. now destruct w. Qed.

Lemma write_file_spec (p : path) (c : content) (w : world) :
  write_file p c w = (Ok tt, with_files w (files w ++ [(p, c)])).
Proof. reflexivity. Qed.

Lemma subscript_endpoint (v : validator) (w : world) :
  subscript NODE_IPS (index v - 1) w
  = match endpoint (index v) with
    | Some _ => (Ok (ip_of v), w)
    | None => (Raise IndexError, w)
    end.
Proof.
  unfold subscript, ip_of, host, endpoint.
  now destruct (Py.index NODE_IPS (index v - 1)).
Qed.

(** The key-file loop of [save_node_files]: all four files of every
    validator, or an [IndexError] at the first validator without an
    endpoint, whose first three files are written by then. *)
Lemma key_files_loop (vs : list validator) : forall (w : world),
  match for_each vs tt (fun _ v =>
          let node_dir := node_dir (index v) in
          write_file (path_join node_dir "key") (Text (Py.slice_from 2 (private_key v))) ;;;
          write_file (path_join node_dir "key.pub") (Text (public_key v)) ;;;
          write_file (path_join node_dir "address") (Text (address v)) ;;;
          ip <- subscript NODE_IPS (index v - 1) ;;
          write_file (path_join node_dir "enode") (Text (enode_url (public_key v) ip))) w with
  | (Ok _, w') =>
      Forall (fun v => endpoint (index v) <> None) vs
      /\ w' = with_files w (files w ++ flat_map key_files vs)
  | (Raise e, w') =>
      e = IndexError
      /\ Exists (fun v => endpoint (index v) = None) vs
      /\ exists more, w' = with_files w (files w ++ more)
  end.
Proof.
  induction vs as [|v vs IH]; intros w.
  - cbn. split; [constructor | now rewrite app_nil_r, with_files_id].
  - cbn [for_each]. unfold bind at 1. cbv zeta.
    unfold bind at 1. rewrite write_file_spec.
    unfold bind at 1. rewrite write_file_spec.
    unfold bind at 1. rewrite write_file_spec.
    unfold bind at 1. rewrite subscript_endpoint.
    destruct (endpoint (index v)) as [ip|] eqn:E.
    + rewrite write_file_spec. cbn [with_files files tape cursor].
      match goal with |- context [for_each vs tt ?b ?w1] =>
        specialize (IH w1); destruct (for_each vs tt b w1) as [[u|e] w'] end.
      * destruct IH as (F & ->). split.
        -- constructor; [congruence | exact F].
        -- unfold with_files; cbn [files tape cursor]. f_equal.
           cbn [flat_map key_files]. rewrite <- !app_assoc. reflexivity.
      * destruct IH as (-> & Ex & more & ->). split; [reflexivity|]. split.
        -- now apply Exists_cons_tl.
        -- eexists. unfold with_files; cbn [files tape cursor]. f_equal.
           rewrite <- !app_assoc. reflexivity.
    + split; [reflexivity|]. split.
      * now apply Exists_cons_hd.
      * eexists. unfold with_files; cbn [files tape cursor]. f_equal.
        rewrite <- !app_assoc. reflexivity.
Qed.

(** The validator loop of [create_docker_compose_files]. *)
Lemma compose_loop (boot consensus : string) (vs : list validator) : forall (w : world),
  match for_each vs tt (fun _ v =>
          let i := index v in
          node_ip <- subscript NODE_IPS (i - 1) ;;
          let bootnode_line := if (i =? 1)%Z then None else Some boot in
          write_file (path_join DOCKER_COMPOSE_DIR ("node" ++ Py.str_of_Z i ++ ".yml"))
            (Compose {| node := i; node_role := Validator; deploy_to := node_ip;
                        rpc_api := (if String.eqb consensus "ibft2" then "IBFT" else "QBFT");
                        bootnodes := bootnode_line |})) w with
  | (Ok _, w') =>
      Forall (fun v => endpoint (index v) <> None) vs
      /\ w' = with_files w (files w ++ map (validator_compose boot consensus) vs)
  | (Raise e, w') =>
      e = IndexError
      /\ Exists (fun v => endpoint (index v) = None) vs
      /\ exists more, w' = with_files w (files w ++ more)
  end.
Proof.
  induction vs as [|v vs IH]; intros w.
  - cbn. split; [constructor | now rewrite app_nil_r, with_files_id].
  - cbn [for_each]. unfold bind at 1. cbv zeta.
    unfold bind at 1. rewrite subscript_endpoint.
    destruct (endpoint (index v)) as [ip|] eqn:E.
    + rewrite write_file_spec.
      match goal with |- context [for_each vs tt ?b ?w1] =>
        specialize (IH w1); destruct (for_each vs tt b w1) as [[u|e] w'] end.
      * destruct IH as (F & ->). split.
        -- constructor; [congruence | exact F].
        -- unfold with_files; cbn [files tape cursor]. f_equal.
           cbn [map]. rewrite <- app_assoc. reflexivity.
      * destruct IH as (-> & Ex & more & ->). split; [reflexivity|]. split.
        -- now apply Exists_cons_tl.
        -- eexists. unfold with_files; cbn [files tape cursor]. f_equal.
           rewrite <- app_assoc. reflexivity.
    + split; [reflexivity|]. split.
      * now apply Exists_cons_hd.
      * exists []. now rewrite app_nil_r, with_files_id.
Qed.

(** ** The three stages of a run *)

Lemma save_node_files_spec (vs : list validator) (consensus : string) (w : world) :
  match save_node_files vs consensus w with
  | (Ok p, w') =>
      p = path_join CONFIG_DIR "genesis.json"
      /\ Forall (fun v => endpoint (index v) <> None) vs
      /\ w' = with_files w (files w ++ genesis_write vs consensus :: flat_map key_files vs)
  | (Raise e, w') =>
      e = IndexError
      /\ Exists (fun v => endpoint (index v) = None) vs
      /\ exists more, w' = with_files w (files w ++ genesis_write vs consensus :: more)
  end.
Proof.
  unfold save_node_files. cbv zeta.
  unfold bind at 1. rewrite write_file_spec.
  unfold bind at 1.
  match goal with |- context [for_each vs tt ?b ?w1] =>
    pose proof (key_files_loop vs w1) as L; cbv zeta in L;
    destruct (for_each vs tt b w1) as [[u|e] w'] end.
  - destruct L as (F & ->). cbn [ret]. repeat split; [exact F|].
    unfold with_files; cbn [files tape cursor]. f_equal.
    now rewrite <- app_assoc.
  - destruct L as (-> & Ex & more & ->). repeat split; [exact Ex|].
    exists more. unfold with_files; cbn [files tape cursor]. f_equal.
    now rewrite <- app_assoc.
Qed.

Lemma create_docker_compose_files_spec (vs : list validator) (consensus : string) (w : world) :
  match create_docker_compose_files vs consensus w with
  | (Ok _, w') =>
      vs <> []
      /\ endpoint 1 <> None
      /\ Forall (fun v => endpoint (index v) <> None) vs
      /\ endpoint NUM_TOTAL_NODES <> None
      /\ w' = with_files w (files w
                            ++ map (validator_compose (bootnode_of vs) consensus) vs
                            ++ [rpc_compose (bootnode_of vs) consensus])
  | (Raise e, w') =>
      e = IndexError
      /\ (vs = [] \/ endpoint 1 = None
          \/ Exists (fun v => endpoint (index v) = None) vs
          \/ endpoint NUM_TOTAL_NODES = None)
      /\ exists more, w' = with_files w (files w ++ more)
  end.
Proof.
  unfold create_docker_compose_files.
  unfold bind at 1.
  destruct vs as [|v0 vs'].
  { cbn. split; [reflexivity|]. split; [now left|].
    exists []. now rewrite app_nil_r, with_files_id. }
  change (subscript (v0 :: vs') 0 w) with (Ok v0, w).
  cbv zeta. unfold bind at 1.
  change (subscript NODE_IPS 0 w)
    with (match endpoint 1 with Some ip => ret ip | None => raise IndexError end w).
  unfold bootnode_of, host.
  destruct (endpoint 1) as [ip0|] eqn:E1.
  2:{ cbn. split; [reflexivity|]. split; [now right; left|].
      exists []. now rewrite app_nil_r, with_files_id. }
  cbn [ret]. unfold bind at 1.
  match goal with |- context [for_each ?l tt ?b w] =>
    pose proof (compose_loop (enode_url (public_key v0) ip0) consensus l w) as L;
    cbv zeta in L; destruct (for_each l tt b w) as [[u|e] w'] end.
  - destruct L as (F & ->).
    unfold bind at 1. unfold subscript, rpc_compose, rpc_descriptor, host.
    change (Py.index NODE_IPS (NUM_TOTAL_NODES - 1)) with (endpoint NUM_TOTAL_NODES).
    destruct (endpoint NUM_TOTAL_NODES) as [rpc_ip|] eqn:Er.
    + cbn [ret]. rewrite write_file_spec.
      repeat split; try congruence.
      unfold with_files; cbn [files tape cursor]. f_equal.
      now rewrite <- app_assoc.
    + cbn [raise]. split; [reflexivity|]. split; [now right; right; right|].
      eexists. reflexivity.
  - destruct L as (-> & Ex & more & ->). split; [reflexivity|].
    split; [now right; right; left|]. now exists more.
Qed.

Lemma main_spec (consensus : string) (w : world) :
  let n := Z.to_nat NUM_VALIDATORS in
  let vs := generated w n in
  match main consensus w with
  | (Ok _, w') =>
      (forall k, k < n -> private_key_to_public_key (draw w k) <> None)
      /\ vs <> []
      /\ Forall (fun v => endpoint (index v) <> None) vs
      /\ endpoint NUM_TOTAL_NODES <> None
      /\ w' = with_files (advance w (32 * n)) (files w ++ artifacts vs consensus)
  | (Raise InvalidKey, w') =>
      (exists k, k < n /\ private_key_to_public_key (draw w k) = None)
      /\ files w' = files w
  | (Raise IndexError, w') =>
      (forall k, k < n -> private_key_to_public_key (draw w k) <> None)
      /\ (vs = [] \/ endpoint 1 = None
          \/ Exists (fun v => endpoint (index v) = None) vs
          \/ endpoint NUM_TOTAL_NODES = None)
      /\ exists more, files w' = (files w ++ genesis_write vs consensus :: more)%list
  end.
Proof.
  intros n vs. unfold main. unfold bind at 1.
  pose proof (generate_validator_keys_spec NUM_VALIDATORS w) as G.
  destruct (generate_validator_keys NUM_VALIDATORS w) as [[vs0|e] w1].
  2:{ destruct G as (-> & k & Hk & _ & Hrej & ->). split; [now exists k | reflexivity]. }
  destruct G as (Hacc & -> & ->). fold n. fold vs.
  unfold bind at 1.
  pose proof (save_node_files_spec vs consensus (advance w (32 * n))) as S.
  destruct (save_node_files vs consensus (advance w (32 * n))) as [[p|e] w2].
  2:{ destruct S as (-> & Ex & more & ->). split; [exact Hacc|]. split; [now right; right; left|].
      now exists more. }
  destruct S as (_ & F & ->).
  unfold bind at 1.
  match goal with |- context [create_docker_compose_files vs consensus ?w2] =>
    pose proof (create_docker_compose_files_spec vs consensus w2) as C;
    destruct (create_docker_compose_files vs consensus w2) as [[u|e] w3] end.
  2:{ destruct C as (-> & Hwhy & more & ->). split; [exact Hacc|]. split; [exact Hwhy|].
      cbn [with_files files advance]. exists (flat_map key_files vs ++ more)%list.
      now rewrite <- app_assoc. }
  destruct C as (Hne & _ & _ & Hrpc & ->).
  unfold save_validators_json. rewrite write_file_spec.
  repeat split; auto.
  unfold with_files, advance, artifacts; cbn [files tape cursor]. f_equal.
  rewrite <- !app_assoc. cbn [app]. repeat rewrite <- app_assoc. reflexivity.
Qed.

(** ** The validators of a run *)


Lemma index_generated (w : world) (n : nat) :
  map index (generated w n) = map Z.of_nat (seq 1 n).
Proof.
  unfold generated. rewrite map_map, <- seq_shift, map_map.
  apply map_ext. intros k. cbn [identity index]. lia.
Qed.



Lemma generated_cons (w : world) (n : nat) :
  generated w (S n)
  = identity 0 (draw w 0) :: map (fun k => identity (Z.of_nat k) (draw w k)) (seq 1 n).
Proof. reflexivity. Qed.

Lemma In_generated (w : world) (n : nat) (v : validator) :
  In v (generated w n) <-> exists k, k < n /\ v = identity (Z.of_nat k) (draw w k).
Proof.
  unfold generated. rewrite in_map_iff. split.
  - intros (k & <- & Hk). apply in_seq in Hk. exists k. split; [lia | reflexivity].
  - intros (k & Hk & ->). exists k. split; [reflexivity | apply in_seq; lia].
Qed.

Lemma length_draw (w : world) (k : nat) : List.length (draw w k) = 32.
Proof. unfold draw. now rewrite length_map, length_seq. Qed.

(** ** What a run writes *)

Lemma descriptors_app (a b : list (path * content)) :
  descriptors (a ++ b) = (descriptors a ++ descriptors b)%list.
Proof.
  induction a as [|[p c] a IH]; [reflexivity|].
  destruct c; cbn [app descriptors]; now rewrite IH.
Qed.

Lemma descriptors_key_files (vs : list validator) :
  descriptors (flat_map key_files vs) = [].
Proof.
  induction vs as [|v vs IH]; [reflexivity|].
  cbn [flat_map]. rewrite descriptors_app, IH. reflexivity.
Qed.

Lemma descriptors_compose (boot consensus : string) (vs : list validator) :
  descriptors (map (validator_compose boot consensus) vs)
  = map (validator_descriptor boot consensus) vs.
Proof. induction vs as [|v vs IH]; [reflexivity|]. cbn. now rewrite IH. Qed.

Lemma descriptors_artifacts (vs : list validator) (consensus : string) :
  descriptors (artifacts vs consensus)
  = (map (validator_descriptor (bootnode_of vs) consensus) vs
     ++ [rpc_descriptor (bootnode_of vs) consensus])%list.
Proof.
  unfold artifacts. cbn [descriptors genesis_write].
  rewrite !descriptors_app, descriptors_key_files, descriptors_compose. reflexivity.
Qed.

Lemma filter_none (rest : list compose_file) (boot : string) :
  Forall (fun d => node d <> 1%Z /\ bootnodes d = Some boot) rest ->
  filter (fun d => negb (has_bootnodes d)) rest = [].
Proof.
  induction 1 as [|d rest [_ Hd] _ IH]; [reflexivity|].
  cbn [filter]. unfold has_bootnodes at 1. now rewrite Hd.
Qed.

(** A successful run has at least one validator, and as many as
    [NUM_VALIDATORS]. *)
Lemma run_validators (consensus : string) (w w' : world) :
  main consensus w = (Ok tt, w') ->
  exists m, Z.to_nat NUM_VALIDATORS = S m
    /\ NUM_VALIDATORS = Z.of_nat (S m)
    /\ (forall k, k < S m -> private_key_to_public_key (draw w k) <> None)
    /\ Forall (fun v => endpoint (index v) <> None) (generated w (S m))
    /\ endpoint NUM_TOTAL_NODES <> None
    /\ w' = with_files (advance w (32 * S m)) (files w ++ artifacts (generated w (S m)) consensus).
Proof.
  intros R. pose proof (main_spec consensus w) as S. cbv zeta in S. rewrite R in S.
  destruct S as (Hacc & Hne & F & Hrpc & ->).
  destruct (Z.to_nat NUM_VALIDATORS) as [|m] eqn:En; [now contradiction Hne|].
  exists m. repeat split; auto. lia.
Qed.

(** C3: among the Compose files of a run, the first is that of validator 1
    and carries no bootnode; every other one, the RPC node's included,
    belongs to another node and carries the enode written to node 1's own
    [enode] file.  So exactly one descriptor is without a bootnode. *)
Theorem bootstrap_topology (consensus : string) (t : nat -> Z) (w' : world) :
  main consensus (fresh t) = (Ok tt, w') ->
  exists d1 rest boot,
    descriptors (files w') = d1 :: rest
    /\ Z.of_nat (List.length (d1 :: rest)) = NUM_TOTAL_NODES
    /\ node d1 = 1%Z /\ node_role d1 = Validator /\ bootnodes d1 = None
    /\ Forall (fun d => node d <> 1%Z /\ bootnodes d = Some boot) rest
    /\ In (path_join (node_dir 1) "enode", Text boot) (files w')
    /\ List.length (filter (fun d => negb (has_bootnodes d)) (descriptors (files w'))) = 1.
Proof.
  intros R. destruct (run_validators consensus _ _ R) as (m & En & EN & _ & _ & _ & ->).
  cbn [files with_files fresh app].
  rewrite descriptors_artifacts, generated_cons.
  set (v0 := identity 0 (draw (fresh t) 0)).
  set (tl := map (fun k => identity (Z.of_nat k) (draw (fresh t) k)) (seq 1 m)).
  set (boot := bootnode_of (v0 :: tl)).
  assert (Hrest : Forall (fun d => node d <> 1%Z /\ bootnodes d = Some boot)
            (map (validator_descriptor boot consensus) tl ++ [rpc_descriptor boot consensus])).
  { apply Forall_app. split.
    - apply Forall_forall. intros d Hd. apply in_map_iff in Hd as (v & <- & Hv).
      apply in_map_iff in Hv as (k & <- & Hk). apply in_seq in Hk.
      cbn [validator_descriptor identity index node bootnodes].
      assert (Z.of_nat k + 1 <> 1)%Z as Hne by lia.
      split; [exact Hne|]. apply Z.eqb_neq in Hne. now rewrite Hne.
    - repeat constructor. cbn [rpc_descriptor node]. unfold NUM_TOTAL_NODES. lia. }
  exists (validator_descriptor boot consensus v0),
         (map (validator_descriptor boot consensus) tl ++ [rpc_descriptor boot consensus])%list,
         boot.
  split; [reflexivity|]. split.
  { cbn [List.length]. rewrite length_app, length_map. unfold tl.
    rewrite length_map, length_seq. cbn [List.length]. unfold NUM_TOTAL_NODES. lia. }
  split; [reflexivity|]. split; [reflexivity|]. split; [reflexivity|].
  split; [exact Hrest|]. split.
  - unfold artifacts. right. apply in_or_app. left.
    cbn [flat_map]. apply in_or_app. left.
    unfold key_files. do 3 right. left. reflexivity.
  - cbn [map app filter]. unfold has_bootnodes at 1.
    cbn [validator_descriptor bootnodes v0 identity index Z.eqb Z.add Z.of_nat Pos.eqb negb].
    cbn [List.length]. now rewrite (filter_none _ boot Hrest).
Qed.

(** ** Paths do not collide *)

Lemma str_of_Z_inj (i j : Z) : (0 < i)%Z -> (0 < j)%Z ->
  Py.str_of_Z i = Py.str_of_Z j -> i = j.
Proof.
  destruct i as [|p|p], j as [|q|q]; try lia. intros _ _ E. cbn in E.
  f_equal. apply DecimalPos.Unsigned.to_uint_inj.
  assert (Some (Pos.to_uint p) = Some (Pos.to_uint q)) as [= ->]; [|reflexivity].
  rewrite <- !NilEmpty.usu. now rewrite E.
Qed.

Lemma node_dir_inj (i j : Z) : (0 < i)%Z -> (0 < j)%Z -> node_dir i = node_dir j -> i = j.
Proof.
  intros Hi Hj E. unfold node_dir, path_join, CONFIG_DIR in E. cbn in E.
  injection E as E. now apply str_of_Z_inj.
Qed.

Lemma path_join_inj (d d' : path) (f f' : string) :
  path_join d f = path_join d' f' -> d = d' /\ f = f'.
Proof. unfold path_join. apply app_inj_tail. Qed.

Lemma In_key_files_enode (v : validator) (dir : path) (s : string) :
  In (path_join dir "enode", Text s) (key_files v) ->
  dir = node_dir (index v) /\ s = enode_url (public_key v) (ip_of v).
Proof.
  unfold key_files. intros [E|[E|[E|[E|[]]]]]; injection E as E Es;
    apply path_join_inj in E as [E1 E2]; try discriminate E2.
  now subst.
Qed.

Lemma In_key_files_key (v : validator) (dir : path) (s : string) :
  In (path_join dir "key", Text s) (key_files v) ->
  dir = node_dir (index v) /\ s = Py.slice_from 2 (private_key v).
Proof.
  unfold key_files. intros [E|[E|[E|[E|[]]]]]; injection E as E Es;
    apply path_join_inj in E as [E1 E2]; try discriminate E2.
  now subst.
Qed.

(** A text file among the artifacts is a key file of some validator, and a
    Compose file is a validator's or the RPC node's. *)
Lemma In_artifacts_text (vs : list validator) (consensus : string) (p : path) (s : string) :
  In (p, Text s) (artifacts vs consensus) ->
  exists v, In v vs /\ In (p, Text s) (key_files v).
Proof.
  unfold artifacts. intros [E|Hin]; [discriminate E|].
  apply in_app_or in Hin as [Hin|Hin].
  - apply in_flat_map in Hin as (v & Hv & Hin). now exists v.
  - apply in_app_or in Hin as [Hin|Hin].
    + apply in_map_iff in Hin as (v & E & _). discriminate E.
    + destruct Hin as [E|[E|[]]]; discriminate E.
Qed.

Lemma In_artifacts_compose (vs : list validator) (consensus : string) (p : path)
      (c : compose_file) :
  In (p, Compose c) (artifacts vs consensus) ->
  (exists v, In v vs /\ c = validator_descriptor (bootnode_of vs) consensus v)
  \/ c = rpc_descriptor (bootnode_of vs) consensus.
Proof.
  unfold artifacts. intros [E|Hin]; [discriminate E|].
  apply in_app_or in Hin as [Hin|Hin].
  - apply in_flat_map in Hin as (v & Hv & Hin).
    destruct Hin as [E|[E|[E|[E|[]]]]]; discriminate E.
  - apply in_app_or in Hin as [Hin|Hin].
    + apply in_map_iff in Hin as (v & E & Hv). injection E as _ <-. left. now exists v.
    + destruct Hin as [E|[E|[]]]; [|discriminate E]. injection E as _ <-. now right.
Qed.

Lemma In_key_files_artifacts (vs : list validator) (consensus : string) (v : validator)
      (f : path * content) :
  In v vs -> In f (key_files v) -> In f (artifacts vs consensus).
Proof.
  intros Hv Hf. unfold artifacts. right. apply in_or_app. left.
  apply in_flat_map. now exists v.
Qed.

Lemma enode_url_unfold (pub : bytes) (ip : string) :
  enode_url ("0x" ++ hex pub) ip = "enode://" ++ hex pub ++ "@" ++ ip ++ ":30303".
Proof. reflexivity. Qed.

(** C8: in a run, the [enode] file of every validator holds exactly
    [enode://<hex public key>@<host>:30303] for its own public key and its
    own entry of [NODE_IPS]; no other [enode] file is written; and the
    string in node 1's [enode] file is the very string every Compose file
    with a [--bootnodes] flag carries, which is every Compose file but
    node 1's. *)
Theorem discovery_uri (consensus : string) (t : nat -> Z) (w' : world) :
  main consensus (fresh t) = (Ok tt, w') ->
  exists vs boot,
    In (["validators.json"], ValidatorsJson vs) (files w')
    /\ (forall v, In v vs -> exists pub ip,
          public_key v = "0x" ++ hex pub
          /\ endpoint (index v) = Some ip
          /\ In (path_join (node_dir (index v)) "enode",
                 Text ("enode://" ++ hex pub ++ "@" ++ ip ++ ":30303")) (files w'))
    /\ (forall dir s, In (path_join dir "enode", Text s) (files w') ->
          exists v pub ip, In v vs /\ dir = node_dir (index v)
            /\ public_key v = "0x" ++ hex pub
            /\ endpoint (index v) = Some ip
            /\ s = "enode://" ++ hex pub ++ "@" ++ ip ++ ":30303")
    /\ (forall s, In (path_join (node_dir 1) "enode", Text s) (files w') <-> s = boot)
    /\ (forall p c, In (p, Compose c) (files w') ->
          bootnodes c = if (node c =? 1)%Z then None else Some boot).
Proof.
  intros R. destruct (run_validators consensus _ _ R) as (m & En & EN & Hacc & F & Hrpc & ->).
  cbn [files with_files fresh app].
  set (w := fresh t) in *. set (vs := generated w (S m)) in *.
  assert (Huri : forall v, In v vs -> exists pub ip,
            public_key v = "0x" ++ hex pub /\ endpoint (index v) = Some ip
            /\ enode_url (public_key v) (ip_of v)
               = "enode://" ++ hex pub ++ "@" ++ ip ++ ":30303").
  { intros v Hv. rewrite Forall_forall in F. specialize (F v Hv).
    apply In_generated in Hv as (k & Hk & ->).
    destruct (endpoint (index (identity (Z.of_nat k) (draw w k)))) as [ip|] eqn:E;
      [|now contradiction F].
    exists (public_key_of (draw w k)), ip. split; [reflexivity|]. split; [reflexivity|].
    unfold ip_of, host. rewrite E. reflexivity. }
  assert (Hpos : forall v, In v vs -> (0 < index v)%Z).
  { intros v Hv. apply In_generated in Hv as (k & _ & ->). cbn. lia. }
  assert (H1 : forall v, In v vs -> index v = 1%Z -> v = identity 0 (draw w 0)).
  { intros v Hv E. apply In_generated in Hv as (k & _ & ->). cbn in E.
    replace k with 0 by lia. reflexivity. }
  assert (Hv0 : In (identity 0 (draw w 0)) vs) by (left; reflexivity).
  exists vs, (bootnode_of vs). split; [|split; [|split; [|split]]].
  - unfold artifacts. right. apply in_or_app. right. apply in_or_app. right.
    right. left. reflexivity.
  - intros v Hv. destruct (Huri v Hv) as (pub & ip & Ep & Ei & Eu).
    exists pub, ip. repeat split; auto. rewrite <- Eu.
    apply (In_key_files_artifacts vs consensus v); [exact Hv|].
    unfold key_files. do 3 right. left. reflexivity.
  - intros dir s Hin. apply In_artifacts_text in Hin as (v & Hv & Hin).
    apply In_key_files_enode in Hin as [-> ->].
    destruct (Huri v Hv) as (pub & ip & Ep & Ei & Eu).
    now exists v, pub, ip.
  - intros s. split.
    + intros Hin. apply In_artifacts_text in Hin as (v & Hv & Hin).
      apply In_key_files_enode in Hin as [Ed ->].
      apply node_dir_inj in Ed; [|lia|now apply Hpos].
      rewrite (H1 v Hv (eq_sym Ed)). reflexivity.
    + intros ->. apply (In_key_files_artifacts vs consensus _ _ Hv0).
      unfold key_files. do 3 right. left. reflexivity.
  - intros p c Hin. apply In_artifacts_compose in Hin as [(v & Hv & ->)| ->].
    + reflexivity.
    + cbn [rpc_descriptor node bootnodes]. unfold NUM_TOTAL_NODES.
      assert (NUM_VALIDATORS + 1 <> 1)%Z as Hne by lia.
      apply Z.eqb_neq in Hne. now rewrite Hne.
Qed.

(** ** Private keys *)

Lemma for_each_map {A B S} (h : A -> B) (l : list A) (body : S -> B -> M S) :
  forall (s : S) (w : world),
    for_each (map h l) s body w = for_each l s (fun s x => body s (h x)) w.
Proof.
  induction l as [|x l IH]; intros s w; [reflexivity|].
  cbn [map for_each]. unfold bind. destruct (body s (h x) w) as [[s'|e] w1]; [apply IH | reflexivity].
Qed.

Lemma alloc_ignores_private_keys (f : validator -> string) (balance : string)
      (vs : list validator) : forall a,
  fold_left (fun a v => Py.dict_set (alloc_key v) balance a)
            (map (fun v => set_private_key (f v) v) vs) a
  = fold_left (fun a v => Py.dict_set (alloc_key v) balance a) vs a.
Proof. induction vs as [|v vs IH]; intros a; [reflexivity | apply IH]. Qed.

(** The genesis and the Compose files are computed without reading any
    private key. *)
Lemma build_genesis_ignores_private_keys (f : validator -> string) (vs : list validator)
      (consensus : string) :
  build_genesis (map (fun v => set_private_key (f v) v) vs) consensus
  = build_genesis vs consensus.
Proof.
  unfold build_genesis. cbv zeta.
  rewrite alloc_ignores_private_keys, map_map. reflexivity.
Qed.

Lemma compose_ignores_private_keys (f : validator -> string) (vs : list validator)
      (consensus : string) (w : world) :
  create_docker_compose_files (map (fun v => set_private_key (f v) v) vs) consensus w
  = create_docker_compose_files vs consensus w.
Proof.
  unfold create_docker_compose_files.
  destruct vs as [|v0 vs]; [reflexivity|].
  unfold bind at 1. symmetry. unfold bind at 1. symmetry.
  change (subscript (map (fun v => set_private_key (f v) v) (v0 :: vs)) 0 w)
    with (Ok (set_private_key (f v0) v0), w).
  change (subscript (v0 :: vs) 0 w) with (Ok v0, w).
  cbv zeta. cbn [set_private_key public_key].
  unfold bind at 1. symmetry. unfold bind at 1. symmetry.
  destruct (subscript NODE_IPS 0 w) as [[ip0|e] w1]; [|reflexivity].
  unfold bind at 1. symmetry. unfold bind at 1. symmetry.
  rewrite for_each_map. reflexivity.
Qed.

Lemma generated_index_inj (w : world) (n : nat) (v v' : validator) :
  In v (generated w n) -> In v' (generated w n) -> index v = index v' -> v = v'.
Proof.
  intros Hv Hv' E.
  apply In_generated in Hv as (k & _ & ->). apply In_generated in Hv' as (k' & _ & ->).
  cbn in E. replace k' with k by lia. reflexivity.
Qed.

(** C9: the genesis and every Compose file of a run are unchanged when the
    validators' private keys are replaced by anything else, so no private
    key is in them; and a Compose file refers to private-key material only
    by mounting the key file of its own node, which holds the private key
    of the validator with that node's index and nothing else. *)
Theorem private_keys_stay_home (consensus : string) (t : nat -> Z) (w' : world) :
  main consensus (fresh t) = (Ok tt, w') ->
  exists vs,
    In (["validators.json"], ValidatorsJson vs) (files w')
    /\ (forall p g, In (p, GenesisJson g) (files w') ->
          forall f : validator -> string,
            g = build_genesis (map (fun v => set_private_key (f v) v) vs) consensus)
    /\ (forall f : validator -> string,
          descriptors (files w')
          = descriptors (files (snd (create_docker_compose_files
               (map (fun v => set_private_key (f v) v) vs) consensus (fresh t)))))
    /\ (forall p c, In (p, Compose c) (files w') ->
          match mounted_key c with
          | None => node_role c = RpcOnly
          | Some kp =>
              exists v, In v vs /\ index v = node c
                /\ forall s, In (kp, Text s) (files w') <-> s = Py.slice_from 2 (private_key v)
          end).
Proof.
  intros R. destruct (run_validators consensus _ _ R) as (m & En & EN & Hacc & F & Hrpc & ->).
  cbn [files with_files fresh app].
  set (w := fresh t) in *. set (vs := generated w (S m)) in *.
  assert (Hpos : forall v, In v vs -> (0 < index v)%Z).
  { intros v Hv. apply In_generated in Hv as (k & _ & ->). cbn. lia. }
  exists vs. split; [|split; [|split]].
  - unfold artifacts. right. apply in_or_app. right. apply in_or_app. right.
    right. left. reflexivity.
  - intros p g Hin f. rewrite build_genesis_ignores_private_keys.
    unfold artifacts in Hin. destruct Hin as [E|Hin]; [now injection E as _ <-|].
    apply in_app_or in Hin as [Hin|Hin].
    + apply in_flat_map in Hin as (v & _ & [E|[E|[E|[E|[]]]]]); discriminate E.
    + apply in_app_or in Hin as [Hin|Hin].
      * apply in_map_iff in Hin as (v & E & _). discriminate E.
      * destruct Hin as [E|[E|[]]]; discriminate E.
  - intros f. rewrite compose_ignores_private_keys.
    pose proof (create_docker_compose_files_spec vs consensus w) as C.
    destruct (create_docker_compose_files vs consensus w) as [[u|e] w1].
    + destruct C as (_ & _ & _ & _ & ->). cbn [snd with_files files w fresh app].
      rewrite descriptors_artifacts, descriptors_app, descriptors_compose. reflexivity.
    + destruct C as (_ & [E|[E|[E|E]]] & _); exfalso.
      * discriminate E.
      * rewrite Forall_forall in F. apply (F (identity 0 (draw w 0))); [now left | exact E].
      * apply Exists_exists in E as (v & Hv & E). rewrite Forall_forall in F.
        now apply (F v Hv).
      * now apply Hrpc.
  - intros p c Hin. apply In_artifacts_compose in Hin as [(v & Hv & ->)| ->]; [|reflexivity].
    cbn [mounted_key validator_descriptor node_role node].
    exists v. split; [exact Hv|]. split; [reflexivity|]. intros s. split.
    + intros Hin. apply In_artifacts_text in Hin as (v' & Hv' & Hin).
      apply In_key_files_key in Hin as [Ed ->].
      apply node_dir_inj in Ed; [| now apply Hpos | now apply Hpos].
      now rewrite (generated_index_inj w (S m) v v' Hv Hv' Ed).
    + intros ->. apply (In_key_files_artifacts vs consensus v); [exact Hv|].
      left. reflexivity.
Qed.

(** ** Failures *)

(** C5, as the code has it: with fewer endpoints than nodes (and seeds the
    key library accepts) the run stops on an [IndexError], and by then the
    genesis file has been written. *)
Theorem short_endpoint_table (consensus : string) (w : world) :
  (Z.of_nat (List.length NODE_IPS) < NUM_TOTAL_NODES)%Z ->
  (forall k, k < Z.to_nat NUM_VALIDATORS -> private_key_to_public_key (draw w k) <> None) ->
  exists w' more,
    main consensus w = (Raise IndexError, w')
    /\ files w' = (files w
                   ++ genesis_write (generated w (Z.to_nat NUM_VALIDATORS)) consensus
                   :: more)%list.
Proof.
  intros Hshort Hacc. pose proof (main_spec consensus w) as S. cbv zeta in S.
  destruct (main consensus w) as [[[]|[]] w'].
  - exfalso. destruct S as (_ & Hne & _ & Hrpc & _). apply Hrpc.
    assert (1 <= NUM_VALIDATORS)%Z as Hn.
    { destruct (Z.to_nat NUM_VALIDATORS) eqn:E; [now contradiction Hne | lia]. }
    unfold endpoint, Py.index, NUM_TOTAL_NODES in *.
    replace (0 <=? NUM_VALIDATORS + 1 - 1)%Z with true by (symmetry; apply Z.leb_le; lia).
    apply nth_error_None. lia.
  - destruct S as (_ & _ & more & E). now exists w', more.
  - exfalso. destruct S as ((k & Hk & Hrej) & _). now apply (Hacc k Hk).
Qed.

(** C6, as the code has it: the encoder has no failure.  Whatever the
    validators, none included, [save_node_files] first writes a genesis
    whose [extraData] is the fixed header, the addresses, the fixed
    trailer. *)
Theorem encoder_never_fails (validators : list validator) (consensus : string) (w : world) :
  exists r w' more,
    save_node_files validators consensus w = (r, w')
    /\ files w' = (files w ++ genesis_write validators consensus :: more)%list
    /\ extraData (build_genesis validators consensus)
       = extra_data_header ++ encoded_addresses (map address validators) ++ extra_data_trailer.
Proof.
  pose proof (save_node_files_spec validators consensus w) as S.
  destruct (save_node_files validators consensus w) as [[p|e] w'].
  - destruct S as (_ & _ & ->). exists (Ok p); do 2 eexists.
    split; [reflexivity|]. split; [reflexivity|]. apply create_extra_data_unfold.
  - destruct S as (_ & _ & more & ->). exists (Raise e); do 2 eexists.
    split; [reflexivity|]. split; [reflexivity|]. apply create_extra_data_unfold.
Qed.

(** ** Identities *)



(** ** Runs that succeed *)



End Properties.

(** ** Concrete runs of the script *)

Lemma sample_keys_accept (w : world) (k : nat) :
  @private_key_to_public_key sample_keys (draw w k) <> None.
Proof.
  unfold sample_keys, private_key_to_public_key. rewrite length_draw. discriminate.
Qed.

Lemma create_extra_data_shape_witness :
  Forall (fun a => is_address a = true) [addr1; addr2]
  /\ String.length (create_extra_data [addr1; addr2]) = 90 + 42 * 2.
Proof.
  split.
  - repeat constructor.
  - apply (create_extra_data_shape [addr1; addr2]). repeat constructor.
Defined.

Lemma bootstrap_topology_witness :
  exists d1 rest boot,
    descriptors (files (snd (@main sample_keys shipped "ibft2" (fresh counting_tape))))
    = d1 :: rest
    /\ Z.of_nat (List.length (d1 :: rest)) = 5%Z
    /\ node d1 = 1%Z /\ node_role d1 = Validator /\ bootnodes d1 = None
    /\ Forall (fun d => node d <> 1%Z /\ bootnodes d = Some boot) rest
    /\ In (path_join (node_dir 1) "enode", Text boot)
          (files (snd (@main sample_keys shipped "ibft2" (fresh counting_tape))))
    /\ List.length (filter (fun d => negb (has_bootnodes d))
         (descriptors (files (snd (@main sample_keys shipped "ibft2" (fresh counting_tape))))))
       = 1.
Proof.
  apply (@bootstrap_topology sample_keys shipped "ibft2" counting_tape).
  vm_compute. reflexivity.
Defined.

Lemma discovery_uri_witness :
  exists vs boot,
    In (["validators.json"], ValidatorsJson vs)
       (files (snd (@main sample_keys shipped "qbft" (fresh counting_tape))))
    /\ (forall s,
          In (path_join (node_dir 1) "enode", Text s)
             (files (snd (@main sample_keys shipped "qbft" (fresh counting_tape))))
          <-> s = boot)
    /\ (forall p c,
          In (p, Compose c) (files (snd (@main sample_keys shipped "qbft" (fresh counting_tape)))) ->
          bootnodes c = if (node c =? 1)%Z then None else Some boot).
Proof.
  assert (R : @main sample_keys shipped "qbft" (fresh counting_tape)
              = (Ok tt, snd (@main sample_keys shipped "qbft" (fresh counting_tape))))
    by (vm_compute; reflexivity).
  destruct (@discovery_uri sample_keys shipped "qbft" counting_tape _ R)
    as (vs & boot & Hv & _ & _ & Hboot & Hc).
  exists vs, boot. split; [exact Hv|]. split; [exact Hboot | exact Hc].
Defined.

Lemma private_keys_stay_home_witness :
  exists vs,
    In (["validators.json"], ValidatorsJson vs)
       (files (snd (@main sample_keys shipped "ibft2" (fresh counting_tape))))
    /\ forall p g,
         In (p, GenesisJson g) (files (snd (@main sample_keys shipped "ibft2" (fresh counting_tape)))) ->
         forall f : validator -> string,
           g = @build_genesis shipped (map (fun v => set_private_key (f v) v) vs) "ibft2".
Proof.
  assert (R : @main sample_keys shipped "ibft2" (fresh counting_tape)
              = (Ok tt, snd (@main sample_keys shipped "ibft2" (fresh counting_tape))))
    by (vm_compute; reflexivity).
  destruct (@private_keys_stay_home sample_keys shipped "ibft2" counting_tape _ R)
    as (vs & Hv & Hg & _).
  exists vs. split; [exact Hv | exact Hg].
Defined.

Lemma short_endpoint_table_witness :
  exists w' more,
    @main sample_keys short_table "ibft2" (fresh counting_tape) = (Raise IndexError, w')
    /\ files w'
       = @genesis_write short_table (@generated sample_keys (fresh counting_tape) 4) "ibft2"
         :: more.
Proof.
  apply (@short_endpoint_table sample_keys short_table "ibft2" (fresh counting_tape)).
  - reflexivity.
  - intros k _. apply sample_keys_accept.
Defined.



(** Four validators, one RPC node, three endpoints: the run stops on an
    [IndexError] with sixteen files written, the genesis first. *)
Lemma short_table_leaves_files :
  fst (@main sample_keys short_table "ibft2" (fresh counting_tape)) = Raise IndexError
  /\ map fst (files (snd (@main sample_keys short_table "ibft2" (fresh counting_tape))))
     = [ ["config"; "genesis.json"];
         ["config"; "keys"; "node1"; "key"]; ["config"; "keys"; "node1"; "key.pub"];
         ["config"; "keys"; "node1"; "address"]; ["config"; "keys"; "node1"; "enode"];
         ["config"; "keys"; "node2"; "key"]; ["config"; "keys"; "node2"; "key.pub"];
         ["config"; "keys"; "node2"; "address"]; ["config"; "keys"; "node2"; "enode"];
         ["config"; "keys"; "node3"; "key"]; ["config"; "keys"; "node3"; "key.pub"];
         ["config"; "keys"; "node3"; "address"]; ["config"; "keys"; "node3"; "enode"];
         ["config"; "keys"; "node4"; "key"]; ["config"; "keys"; "node4"; "key.pub"];
         ["config"; "keys"; "node4"; "address"] ].
Proof. split; vm_compute; reflexivity. Qed.

(** The empty list is encoded, and the genesis with it is written. *)
Lemma empty_list_is_encoded :
  create_extra_data []
  = "0xf87ea00000000000000000000000000000000000000000000000000000000000000000f854808400000000c0"
  /\ exists w',
       @save_node_files shipped [] "ibft2" (fresh zero_tape)
       = (Ok ["config"; "genesis.json"], w')
       /\ files w' = [ (["config"; "genesis.json"], GenesisJson (@build_genesis shipped [] "ibft2")) ]
       /\ extraData (@build_genesis shipped [] "ibft2") = create_extra_data [].
Proof.
  split; [reflexivity|]. eexists. split; [vm_compute; reflexivity|].
  split; reflexivity.
Qed.


(** ** The length prefixes fit four validators only *)

Lemma all_addresses (addrs : list string) :
  forallb is_address addrs = true -> Forall (fun a => is_address a = true) addrs.
Proof. intros E. apply Forall_forall. now apply forallb_forall. Qed.

(** C1 at five addresses: each is a 20-byte address, yet no amount of fuel
    makes the decoder accept what the encoder returns for them. *)
Theorem five_addresses_do_not_decode :
  Forall (fun a => is_address a = true) five_addresses
  /\ (exists bss, addresses_bytes five_addresses = Some bss /\ List.length bss = 5)
  /\ forall fuel, decode_extra_data fuel (create_extra_data five_addresses) = None.
Proof.
  assert (Hwf : Forall (fun a => is_address a = true) five_addresses)
    by (apply all_addresses; vm_compute; reflexivity).
  split; [exact Hwf|]. split.
  - eexists. split; [vm_compute; reflexivity | reflexivity].
  - intros fuel.
    destruct (decode_extra_data fuel (create_extra_data five_addresses)) as [r|] eqn:E;
      [|reflexivity].
    apply decode_needs_four in E; [discriminate E | exact Hwf].
Qed.

(** C2 at five validators: the genesis has their five allocations, each
    with the initial balance, but its [extraData] does not decode. *)
Theorem five_validators_genesis_does_not_decode :
  fst (@generate_validator_keys sample_keys 5 (fresh counting_tape)) = Ok five_validators
  /\ alloc (@build_genesis (with_validators 5) five_validators "ibft2")
     = map (fun v => (alloc_key v, @INITIAL_BALANCE (with_validators 5))) five_validators
  /\ (exists bss, addresses_bytes (map address five_validators) = Some bss
                  /\ List.length bss = 5)
  /\ forall fuel,
       decode_extra_data fuel (extraData (@build_genesis (with_validators 5) five_validators "ibft2"))
       = None.
Proof.
  split; [vm_compute; reflexivity|]. split; [vm_compute; reflexivity|]. split.
  - eexists. split; [vm_compute; reflexivity | reflexivity].
  - intros fuel.
    change (extraData (@build_genesis (with_validators 5) five_validators "ibft2"))
      with (create_extra_data (map address five_validators)).
    destruct (decode_extra_data fuel _) as [r|] eqn:E; [|reflexivity].
    apply decode_needs_four in E; [rewrite length_map in E; discriminate E|].
    apply all_addresses. vm_compute. reflexivity.
Qed.

(** The encoder and the decoder are inverse at four addresses, and only
    there: the header's two length bytes are those of four addresses. *)
Theorem round_trip_iff_four (addrs : list string) :
  Forall (fun a => is_address a = true) addrs ->
  (decode (create_extra_data addrs) = addresses_bytes addrs <-> List.length addrs = 4).
Proof.
  intros Hwf. split.
  - destruct (addresses_bytes_wf addrs Hwf) as (bss & E & _). rewrite E.
    unfold decode. intros D. now apply decode_needs_four in D.
  - now apply decode_four.
Qed.

Lemma round_trip_iff_four_witness :
  decode (create_extra_data [addr1; addr2; addr3; addr4])
  = addresses_bytes [addr1; addr2; addr3; addr4].
Proof.
  apply (round_trip_iff_four [addr1; addr2; addr3; addr4]).
  - apply all_addresses. vm_compute. reflexivity.
  - reflexivity.
Defined.

(** ** Allocations *)

Lemma dict_set_new {V} (k : string) (v : V) (d : list (string * V)) :
  ~ In k (map fst d) -> Py.dict_set k v d = (d ++ [(k, v)])%list.
Proof.
  induction d as [|[k' v'] d IH]; intros Hk; [reflexivity|].
  cbn [Py.dict_set app]. cbn [map fst In] in Hk.
  destruct (String.eqb_spec k k') as [->|Hne]; [exfalso; apply Hk; now left|].
  rewrite IH; [reflexivity|]. intros Hin. apply Hk. now right.
Qed.

Lemma dict_set_keys {V} (k : string) (v : V) (d : list (string * V)) :
  In k (map fst d) -> map fst (Py.dict_set k v d) = map fst d.
Proof.
  induction d as [|[k' v'] d IH]; intros Hk; [contradiction Hk|].
  cbn [Py.dict_set]. destruct (String.eqb_spec k k') as [->|Hne]; [reflexivity|].
  cbn [map fst]. rewrite IH; [reflexivity|].
  destruct Hk as [E|Hk]; [cbn in E; congruence | exact Hk].
Qed.

Lemma dict_set_In {V} (k : string) (v : V) (d : list (string * V)) :
  In (k, v) (Py.dict_set k v d).
Proof.
  induction d as [|[k' v'] d IH]; [now left|].
  cbn [Py.dict_set]. destruct (String.eqb_spec k k') as [->|Hne]; [now left | now right].
Qed.

Lemma dict_set_inv {V} (k k' : string) (v b : V) (d : list (string * V)) :
  In (k', b) (Py.dict_set k v d) -> (k' = k /\ b = v) \/ In (k', b) d.
Proof.
  induction d as [|[k0 v0] d IH]; cbn [Py.dict_set].
  - intros [[= <- <-]|[]]. now left.
  - destruct (String.eqb_spec k k0) as [->|Hne].
    + intros [[= <- <-]|Hin]; [now left | right; now right].
    + intros [E|Hin]; [right; now left|].
      destruct (IH Hin) as [?|?]; [now left | right; now right].
Qed.

Lemma dict_set_keep {V} (k k' : string) (v b : V) (d : list (string * V)) :
  In (k', b) d -> k' <> k -> In (k', b) (Py.dict_set k v d).
Proof.
  induction d as [|[k0 v0] d IH]; [contradiction|].
  intros [[= -> ->]|Hin] Hne; cbn [Py.dict_set].
  - destruct (String.eqb_spec k k') as [->|_]; [congruence | now left].
  - destruct (String.eqb_spec k k0) as [->|_]; right; [exact Hin | now apply IH].
Qed.

Lemma dict_set_NoDup {V} (k : string) (v : V) (d : list (string * V)) :
  NoDup (map fst d) -> NoDup (map fst (Py.dict_set k v d)).
Proof.
  intros ND. destruct (in_dec string_dec k (map fst d)) as [Hin|Hnot].
  - now rewrite dict_set_keys.
  - rewrite dict_set_new, map_app by exact Hnot.
    apply NoDup_app; [exact ND | repeat constructor; intros [] | ].
    intros a Ha [<-|[]]. now apply Hnot.
Qed.

Section Allocations.
Context `{Configuration}.

(** The allocation loop of [save_node_files], from any dict whose balances
    are all the initial balance. *)
Lemma alloc_loop (vs : list validator) : forall d,
  NoDup (map fst d) ->
  (forall k b, In (k, b) d -> b = INITIAL_BALANCE) ->
  let d' := fold_left (fun a v => Py.dict_set (alloc_key v) INITIAL_BALANCE a) vs d in
  NoDup (map fst d')
  /\ (forall k b, In (k, b) d' ->
        b = INITIAL_BALANCE /\ (In (k, b) d \/ exists v, In v vs /\ k = alloc_key v))
  /\ (forall v, In v vs -> In (alloc_key v, INITIAL_BALANCE) d')
  /\ (forall k b, In (k, b) d -> In (k, b) d').
Proof.
  induction vs as [|v vs IH]; intros d ND HB; cbn [fold_left].
  - split; [exact ND|]. split; [|split].
    + intros k b Hin. split; [now apply (HB k b) | now left].
    + intros v [].
    + auto.
  - specialize (IH (Py.dict_set (alloc_key v) INITIAL_BALANCE d)
                   (dict_set_NoDup _ _ _ ND)).
    assert (HB' : forall k b, In (k, b) (Py.dict_set (alloc_key v) INITIAL_BALANCE d) ->
                              b = INITIAL_BALANCE).
    { intros k b Hin. apply dict_set_inv in Hin as [[_ ->]|Hin]; [reflexivity | eauto]. }
    assert (Hkeep : forall k b, In (k, b) d ->
                      In (k, b) (Py.dict_set (alloc_key v) INITIAL_BALANCE d)).
    { intros k b Hin. destruct (string_dec k (alloc_key v)) as [->|Hne].
      - rewrite (HB _ _ Hin). apply dict_set_In.
      - now apply dict_set_keep. }
    destruct (IH HB') as (ND' & Hall & Hin' & Hmono). cbv zeta.
    split; [exact ND'|]. split; [|split].
    + intros k b Hkb. destruct (Hall k b Hkb) as (Hb & [Hin|(v' & Hv' & ->)]).
      * split; [exact Hb|].
        apply dict_set_inv in Hin as [[-> _]|Hin]; [|now left].
        right. exists v. split; [now left | reflexivity].
      * split; [exact Hb|]. right. exists v'. split; [now right | reflexivity].
    + intros v' [<-|Hv']; [apply Hmono, dict_set_In | now apply Hin'].
    + intros k b Hin. now apply Hmono, Hkeep.
Qed.

Lemma alloc_loop_distinct (vs : list validator) : forall d,
  NoDup (map fst d ++ map alloc_key vs) ->
  fold_left (fun a v => Py.dict_set (alloc_key v) INITIAL_BALANCE a) vs d
  = (d ++ map (fun v => (alloc_key v, INITIAL_BALANCE)) vs)%list.
Proof.
  induction vs as [|v vs IH]; intros d ND; cbn [fold_left map].
  - now rewrite app_nil_r.
  - assert (Hnew : ~ In (alloc_key v) (map fst d)).
    { intros Hin. apply NoDup_remove_2 in ND. apply ND. apply in_or_app. now left. }
    rewrite dict_set_new by exact Hnew. rewrite IH.
    + now rewrite <- app_assoc.
    + rewrite map_app. cbn [map fst]. rewrite <- app_assoc. cbn [app].
      apply NoDup_Add with (a := alloc_key v) (l := (map fst d ++ map alloc_key vs)%list).
      * apply Add_app.
      * split; [now apply NoDup_remove_1 in ND | now apply NoDup_remove_2 in ND].
Qed.

(** The allocations of the genesis: one entry per validator address, none
    else, every balance the initial balance; in the validators' order when
    their addresses differ. *)
Theorem genesis_allocations (validators : list validator) (consensus : string) :
  NoDup (map fst (alloc (build_genesis validators consensus)))
  /\ (forall v, In v validators ->
        In (alloc_key v, INITIAL_BALANCE) (alloc (build_genesis validators consensus)))
  /\ (forall k b, In (k, b) (alloc (build_genesis validators consensus)) ->
        b = INITIAL_BALANCE /\ exists v, In v validators /\ k = alloc_key v)
  /\ (NoDup (map alloc_key validators) ->
        alloc (build_genesis validators consensus)
        = map (fun v => (alloc_key v, INITIAL_BALANCE)) validators).
Proof.
  unfold build_genesis. cbv zeta. cbn [alloc create_genesis_config].
  destruct (alloc_loop validators [] (NoDup_nil _) ltac:(intros ? ? []))
    as (ND & Hall & Hin & _).
  split; [exact ND|]. split; [exact Hin|]. split.
  - intros k b Hkb. destruct (Hall k b Hkb) as (-> & [[]|Hv]). now split.
  - intros NDk. now rewrite alloc_loop_distinct.
Qed.

(** With four validators the genesis is consistent: its [extraData]
    decodes to the validators' addresses, in their order. *)
Theorem genesis_cross_reference_four (validators : list validator) (consensus : string) :
  Forall (fun v => is_address (address v) = true) validators ->
  List.length validators = 4 ->
  decode (extraData (build_genesis validators consensus))
  = addresses_bytes (map address validators).
Proof.
  intros Hwf Hn. cbn [build_genesis extraData].
  apply decode_four; [|now rewrite length_map].
  apply Forall_forall. intros a Ha. apply in_map_iff in Ha as (v & <- & Hv).
  rewrite Forall_forall in Hwf. now apply Hwf.
Qed.

End Allocations.

Lemma genesis_allocations_witness :
  alloc (@build_genesis shipped five_validators "ibft2")
  = map (fun v => (alloc_key v, @INITIAL_BALANCE shipped)) five_validators.
Proof.
  apply (@genesis_allocations shipped five_validators "ibft2").
  vm_compute. repeat constructor; cbn; intuition discriminate.
Defined.

Lemma genesis_cross_reference_four_witness :
  decode (extraData (@build_genesis shipped (@generated sample_keys (fresh counting_tape) 4) "ibft2"))
  = addresses_bytes (map address (@generated sample_keys (fresh counting_tape) 4)).
Proof.
  apply (@genesis_cross_reference_four shipped).
  - apply Forall_forall. apply forallb_forall. vm_compute. reflexivity.
  - reflexivity.
Defined.


(** * Further properties of the script *)

Section Runs.
Context `{EthKeys} `{Configuration}.

(** ** Nodes and their endpoints *)

Lemma endpoint_host (i : Z) : endpoint i <> None -> Py.index NODE_IPS (i - 1) = Some (host i).
Proof.
  unfold host. fold (endpoint i). destruct (endpoint i); [reflexivity | congruence].
Qed.

(** The Compose files of a run are those of nodes 1, 2, ... up to
    [NUM_TOTAL_NODES], in this order; each names as its host the entry of
    [NODE_IPS] at its index, the last one alone is the RPC node's, and a
    validator's host is the host of the enode in its own [enode] file. *)
Theorem compose_endpoints (consensus : string) (t : nat -> Z) (w' : world) :
  main consensus (fresh t) = (Ok tt, w') ->
  map node (descriptors (files w')) = map Z.of_nat (seq 1 (Z.to_nat NUM_TOTAL_NODES))
  /\ (forall c, In c (descriptors (files w')) ->
        Py.index NODE_IPS (node c - 1) = Some (deploy_to c)
        /\ (node_role c = RpcOnly <-> node c = NUM_TOTAL_NODES))
  /\ (forall c, In c (descriptors (files w')) -> node_role c = Validator ->
        exists pub, In (path_join (node_dir (node c)) "enode",
                        Text ("enode://" ++ hex pub ++ "@" ++ deploy_to c ++ ":30303"))
                       (files w')).
Proof.
  intros R. destruct (run_validators consensus _ _ R) as (m & En & EN & Hacc & F & Hrpc & ->).
  cbn [files with_files fresh app].
  set (w := fresh t) in *. set (vs := generated w (S m)) in *.
  rewrite descriptors_artifacts.
  assert (Etot : Z.to_nat NUM_TOTAL_NODES = S (S m)) by (unfold NUM_TOTAL_NODES; lia).
  split; [|split].
  - rewrite map_app, map_map. cbn [map rpc_descriptor node validator_descriptor].
    change (map (fun v => index v) vs) with (map index vs).
    unfold vs. rewrite index_generated, Etot, (seq_S (S m) 1), map_app.
    cbn [map]. do 2 f_equal. unfold NUM_TOTAL_NODES. lia.
  - intros c Hc. apply in_app_or in Hc as [Hc|[<-|[]]].
    + apply in_map_iff in Hc as (v & <- & Hv).
      cbn [validator_descriptor node deploy_to node_role]. split.
      * rewrite Forall_forall in F. apply endpoint_host. now apply F.
      * split; [discriminate|]. intros E.
        apply In_generated in Hv as (k & Hk & ->). cbn [identity index] in E.
        unfold NUM_TOTAL_NODES in E. lia.
    + cbn [rpc_descriptor node deploy_to node_role]. split; [now apply endpoint_host|].
      split; reflexivity.
  - intros c Hc Hrole. apply in_app_or in Hc as [Hc|[<-|[]]]; [|discriminate Hrole].
    apply in_map_iff in Hc as (v & <- & Hv).
    cbn [validator_descriptor node deploy_to].
    pose proof Hv as Hk. apply In_generated in Hk as (k & _ & Ev).
    exists (public_key_of (draw w k)).
    apply (In_key_files_artifacts vs consensus v); [exact Hv|].
    unfold key_files. do 3 right. left. subst v. reflexivity.
Qed.

(** ** One consensus for all artifacts *)


(** ** Runs that fail *)

(** Without validators ([NUM_VALIDATORS] zero or less) a run draws no
    random byte, writes a genesis with no allocation and an [extraData] of
    header and trailer alone, and stops on the [IndexError] of
    [validators[0]]: no key file, no Compose file, no [validators.json]. *)
Theorem no_validators (consensus : string) (w : world) :
  (NUM_VALIDATORS <= 0)%Z ->
  main consensus w
  = (Raise IndexError, with_files w (files w ++ [genesis_write [] consensus]))
  /\ alloc (build_genesis [] consensus) = []
  /\ extraData (build_genesis [] consensus) = extra_data_header ++ extra_data_trailer.
Proof.
  intros Hn. split; [|split; reflexivity].
  unfold main, generate_validator_keys, Py.range.
  replace (Z.to_nat NUM_VALIDATORS) with 0 by lia.
  cbn [seq map for_each]. unfold bind at 1. cbn [ret].
  unfold bind at 1.
  pose proof (save_node_files_spec [] consensus w) as S.
  destruct (save_node_files [] consensus w) as [[p|e] w1].
  - destruct S as (_ & _ & ->). cbn [flat_map]. reflexivity.
  - destruct S as (_ & Ex & _). inversion Ex.
Qed.

(** A seed the key library rejects ends the run at once: the error is the
    library's, the seeds up to the rejected one have been drawn, and no
    file has been written. *)
Theorem rejected_seed_writes_nothing (consensus : string) (w : world) (k : nat) :
  k < Z.to_nat NUM_VALIDATORS ->
  (forall j, j < k -> private_key_to_public_key (draw w j) <> None) ->
  private_key_to_public_key (draw w k) = None ->
  main consensus w = (Raise InvalidKey, advance w (32 * (k + 1))).
Proof.
  intros Hk Hbefore Hrej. unfold main. unfold bind at 1.
  pose proof (generate_validator_keys_spec NUM_VALIDATORS w) as G.
  destruct (generate_validator_keys NUM_VALIDATORS w) as [[vs|e] w1].
  - exfalso. destruct G as (Hacc & _). now apply (Hacc k Hk).
  - destruct G as (-> & k' & Hk' & Hbefore' & Hrej' & ->).
    assert (k' = k) as ->; [|reflexivity].
    destruct (Nat.lt_trichotomy k' k) as [Hlt|[E|Hlt]]; [|exact E|].
    + exfalso. now apply (Hbefore k' Hlt).
    + exfalso. now apply (Hbefore' k Hlt).
Qed.

(** ** The random source *)

(** [generate_validator_keys] is a function of the bytes it draws: two
    random sources that agree on the [32 * n] bytes ahead give the same
    validators, or the same error. *)
Theorem generate_reads_only_its_draws (n : Z) (w1 w2 : world) :
  cursor w1 = cursor w2 ->
  (forall j, cursor w1 <= j < cursor w1 + 32 * Z.to_nat n ->
     (tape w1 j mod 256 = tape w2 j mod 256)%Z) ->
  fst (generate_validator_keys n w1) = fst (generate_validator_keys n w2).
Proof.
  intros Ec Et.
  assert (Hdraw : forall k, k < Z.to_nat n -> draw w1 k = draw w2 k).
  { intros k Hk. unfold draw. rewrite <- Ec. apply map_ext_in. intros j Hj.
    apply in_seq in Hj. apply Et. lia. }
  pose proof (generate_validator_keys_spec n w1) as G1.
  pose proof (generate_validator_keys_spec n w2) as G2.
  destruct (generate_validator_keys n w1) as [[vs1|e1] w1'],
           (generate_validator_keys n w2) as [[vs2|e2] w2']; cbn [fst].
  - destruct G1 as (_ & -> & _), G2 as (_ & -> & _). f_equal. unfold generated.
    apply map_ext_in. intros k Hk. apply in_seq in Hk. rewrite Hdraw by lia. reflexivity.
  - exfalso. destruct G1 as (Hacc & _), G2 as (_ & k & Hk & _ & Hrej & _).
    apply (Hacc k Hk). now rewrite Hdraw.
  - exfalso. destruct G2 as (Hacc & _), G1 as (_ & k & Hk & _ & Hrej & _).
    apply (Hacc k Hk). now rewrite <- Hdraw.
  - destruct G1 as (-> & _), G2 as (-> & _). reflexivity.
Qed.

End Runs.

(** ** Hexadecimal text reads back *)

Lemma hex_value_hex_digit (d : Z) : (0 <= d < 16)%Z -> hex_value (hex_digit d) = Some d.
Proof.
  intros Hd.
  assert (d = 0 \/ d = 1 \/ d = 2 \/ d = 3 \/ d = 4 \/ d = 5 \/ d = 6 \/ d = 7 \/ d = 8
          \/ d = 9 \/ d = 10 \/ d = 11 \/ d = 12 \/ d = 13 \/ d = 14 \/ d = 15)%Z
    as E by lia.
  repeat (destruct E as [->|E]; [reflexivity|]). subst d. reflexivity.
Qed.

Lemma unhex_hex (bs : bytes) :
  Forall (fun b => (0 <= b < 256)%Z) bs -> unhex (hex bs) = Some bs.
Proof.
  induction 1 as [|b bs Hb _ IH]; [reflexivity|].
  cbn [hex unhex]. rewrite !hex_value_hex_digit, IH.
  - do 2 f_equal. pose proof (Z.div_mod b 16 ltac:(lia)). lia.
  - apply Z.mod_pos_bound. lia.
  - split; [apply Z.div_pos; lia | apply Z.div_lt_upper_bound; lia].
Qed.

Lemma length_hex (bs : bytes) : String.length (hex bs) = 2 * List.length bs.
Proof. induction bs as [|b bs IH]; [reflexivity|]. cbn [hex String.length List.length]. lia. Qed.

Lemma draw_in_range (w : world) (k : nat) : Forall (fun b => (0 <= b < 256)%Z) (draw w k).
Proof.
  unfold draw. apply Forall_forall. intros b Hb. apply in_map_iff in Hb as (j & <- & _).
  apply Z.mod_pos_bound. lia.
Qed.

Section Keys.
Context `{EthKeys} `{Configuration}.

(** The key file of every validator of a run holds 64 hexadecimal digits
    which read back as the 32 bytes drawn for it, and [validators.json]
    holds the same key behind [0x]. *)
Theorem key_file_reads_back (consensus : string) (t : nat -> Z) (w' : world) (k : nat) :
  main consensus (fresh t) = (Ok tt, w') ->
  k < Z.to_nat NUM_VALIDATORS ->
  exists s vs v,
    In (path_join (node_dir (Z.of_nat k + 1)) "key", Text s) (files w')
    /\ String.length s = 64
    /\ unhex s = Some (draw (fresh t) k)
    /\ In (["validators.json"], ValidatorsJson vs) (files w')
    /\ nth_error vs k = Some v
    /\ index v = (Z.of_nat k + 1)%Z
    /\ private_key v = "0x" ++ s.
Proof.
  intros R Hk. destruct (run_validators consensus _ _ R) as (m & En & _ & _ & _ & _ & ->).
  cbn [files with_files fresh app]. rewrite En in Hk.
  set (w := fresh t) in *. set (vs := generated w (S m)) in *.
  set (v := identity (Z.of_nat k) (draw w k)).
  assert (Hv : In v vs) by (apply In_generated; now exists k).
  exists (hex (draw w k)), vs, v. split; [|split; [|split; [|split; [|split; [|split]]]]].
  - apply (In_key_files_artifacts vs consensus v); [exact Hv|]. left. reflexivity.
  - now rewrite length_hex, length_draw.
  - apply unhex_hex, draw_in_range.
  - unfold artifacts. right. apply in_or_app. right. apply in_or_app. right.
    right. left. reflexivity.
  - unfold vs, generated. rewrite nth_error_map, nth_error_seq.
    destruct (Nat.ltb_spec k (S m)) as [_|Hge]; [reflexivity | lia].
  - reflexivity.
  - reflexivity.
Qed.

End Keys.

(** ** The encoder loses nothing *)

Lemma app_same_length {A} (a b c d : list A) :
  List.length a = List.length b -> (a ++ c = b ++ d)%list -> a = b /\ c = d.
Proof.
  revert b. induction a as [|x a IH]; intros [|y b] L E; try discriminate L.
  - now split.
  - injection L as L. injection E as -> E. destruct (IH b L E) as [-> ->]. now split.
Qed.

Lemma tagged_injective (a b : list bytes) :
  Forall (fun x => List.length x = 20) a ->
  Forall (fun x => List.length x = 20) b ->
  (forall r r', (tagged a ++ r = tagged b ++ r')%list ->
                List.length a = List.length b -> a = b).
Proof.
  intros Fa. revert b. induction Fa as [|x a Hx _ IH]; intros b Fb r r' E L.
  - destruct b; [reflexivity | discriminate L].
  - destruct Fb as [|y b Hy Fb]; [discriminate L|].
    cbn [tagged] in E. rewrite <- !app_assoc in E. cbn [app] in E.
    injection E as E. apply app_same_length in E as [-> E]; [|congruence].
    f_equal. injection L as L. now apply (IH b Fb r r').
Qed.

(** Two lists of addresses with the same extension field are the same
    addresses, byte for byte and in the same order: whatever the number of
    addresses, the field determines them. *)
Theorem create_extra_data_injective (a b : list string) :
  Forall (fun x => is_address x = true) a ->
  Forall (fun x => is_address x = true) b ->
  create_extra_data a = create_extra_data b ->
  addresses_bytes a = addresses_bytes b.
Proof.
  intros Ha Hb E.
  destruct (addresses_bytes_wf a Ha) as (bsa & Ea & La & Fa).
  destruct (addresses_bytes_wf b Hb) as (bsb & Eb & Lb & Fb).
  rewrite Ea, Eb. f_equal.
  pose proof (extra_data_bytes a bsa Ea) as Xa.
  pose proof (extra_data_bytes b bsb Eb) as Xb.
  rewrite E, Xb in Xa. apply (f_equal (fun o => match o with Some l => l | None => [] end)) in Xa.
  apply app_inv_head in Xa. symmetry in Xa.
  apply (tagged_injective bsa bsb Fa Fb _ _ Xa).
  pose proof (length_create_extra_data a Ha) as LA.
  pose proof (length_create_extra_data b Hb) as LB.
  rewrite E in LA. lia.
Qed.

Lemma create_extra_data_injective_witness :
  addresses_bytes [addr1; addr2] = addresses_bytes [Py.lower addr1; Py.lower addr2].
Proof.
  apply create_extra_data_injective.
  - apply all_addresses. vm_compute. reflexivity.
  - apply all_addresses. vm_compute. reflexivity.
  - vm_compute. reflexivity.
Defined.

(** ** Allocations and the extension field, side by side *)

Section Genesis.
Context `{Configuration}.

Lemma encoded_addresses_keys (vs : list validator) :
  encoded_addresses (map address vs)
  = fold_right (fun v acc => "94" ++ alloc_key v ++ acc) EmptyString vs.
Proof. induction vs as [|v vs IH]; [reflexivity|]. cbn. now rewrite IH. Qed.

(** When no two validators share an address (whatever the case of its
    letters), the genesis lists them twice in the same order: [extraData]
    is the header, then the keys of [alloc] in the order of [alloc], each
    behind [94], then the trailer.  This holds for any number of
    validators. *)
Theorem extra_data_lists_alloc_keys (validators : list validator) (consensus : string) :
  NoDup (map alloc_key validators) ->
  extraData (build_genesis validators consensus)
  = extra_data_header
    ++ fold_right (fun kv acc => "94" ++ fst kv ++ acc) EmptyString
                  (alloc (build_genesis validators consensus))
    ++ extra_data_trailer.
Proof.
  intros ND. unfold build_genesis. cbv zeta. cbn [alloc extraData create_genesis_config].
  rewrite alloc_loop_distinct by exact ND. cbn [app].
  rewrite create_extra_data_unfold, encoded_addresses_keys. do 2 f_equal.
  induction validators as [|v vs IH]; [reflexivity|].
  cbn [map fold_right fst]. rewrite IH; [reflexivity|]. now inversion ND.
Qed.

Lemma alloc_keys_incl (vs : list validator) (consensus : string) :
  incl (map alloc_key vs) (map fst (alloc (build_genesis vs consensus)))
  /\ incl (map fst (alloc (build_genesis vs consensus))) (map alloc_key vs)
  /\ NoDup (map fst (alloc (build_genesis vs consensus))).
Proof.
  unfold build_genesis. cbv zeta. cbn [alloc create_genesis_config].
  destruct (alloc_loop vs [] (NoDup_nil _) ltac:(intros ? ? []))
    as (ND & Hall & Hin & _).
  split; [|split; [|exact ND]].
  - intros k Hk. apply in_map_iff in Hk as (v & <- & Hv).
    apply in_map_iff. exists (alloc_key v, INITIAL_BALANCE). split; [reflexivity | now apply Hin].
  - intros k Hk. apply in_map_iff in Hk as ([k' b] & <- & Hkb).
    destruct (Hall k' b Hkb) as (_ & [[]|(v & Hv & ->)]). cbn [fst].
    apply in_map_iff. now exists v.
Qed.

(** [alloc] never has more entries than there are validators, and has as
    many exactly when no two validators share an address: validators with
    the same address share one allocation. *)
Theorem alloc_counts_addresses (validators : list validator) (consensus : string) :
  List.length (alloc (build_genesis validators consensus)) <= List.length validators
  /\ (List.length (alloc (build_genesis validators consensus)) = List.length validators
      <-> NoDup (map alloc_key validators)).
Proof.
  destruct (alloc_keys_incl validators consensus) as (I1 & I2 & ND).
  rewrite <- (length_map fst (alloc _)), <- (length_map alloc_key validators).
  split; [now apply NoDup_incl_length|]. split.
  - intros E. apply (NoDup_incl_NoDup ND); [lia | exact I2].
  - intros NDk. apply Nat.le_antisymm; now apply NoDup_incl_length.
Qed.

End Genesis.

Lemma extra_data_lists_alloc_keys_witness :
  extraData (@build_genesis shipped five_validators "qbft")
  = extra_data_header
    ++ fold_right (fun kv acc => "94" ++ fst kv ++ acc) EmptyString
                  (alloc (@build_genesis shipped five_validators "qbft"))
    ++ extra_data_trailer.
Proof.
  apply (@extra_data_lists_alloc_keys shipped five_validators "qbft").
  vm_compute. repeat constructor; cbn; intuition discriminate.
Defined.

(** ** No file is written twice *)

Lemma append_same_length (a b c d : string) :
  String.length a = String.length b -> a ++ c = b ++ d -> a = b /\ c = d.
Proof.
  revert b. induction a as [|x a IH]; intros [|y b] L E; try discriminate L.
  - now split.
  - injection L as L. injection E as -> E. destruct (IH b L E) as [-> ->]. now split.
Qed.

Lemma append_inv_tail (a b t : string) : a ++ t = b ++ t -> a = b.
Proof.
  intros E. apply (append_same_length a b t t); [|exact E].
  apply (f_equal String.length) in E. rewrite !length_append in E. lia.
Qed.

Lemma NoDup_map_on {A B} (f : A -> B) (l : list A) :
  (forall a b, In a l -> In b l -> f a = f b -> a = b) -> NoDup l -> NoDup (map f l).
Proof.
  intros Hinj ND. induction ND as [|a l Hnot ND IH]; [constructor|].
  cbn [map]. constructor.
  - intros Hin. apply in_map_iff in Hin as (b & E & Hb).
    apply Hnot. rewrite (Hinj a b); [exact Hb | now left | now right | now symmetry].
  - apply IH. intros x y Hx Hy. apply Hinj; now right.
Qed.

Lemma compose_path_inj (i j : Z) :
  (0 < i)%Z -> (0 < j)%Z -> compose_path i = compose_path j -> i = j.
Proof.
  intros Hi Hj E. unfold compose_path, path_join, DOCKER_COMPOSE_DIR in E. cbn in E.
  injection E as E. apply append_inv_tail in E. now apply str_of_Z_inj.
Qed.

Lemma In_key_paths (i : Z) (p : path) :
  In p (key_paths i) ->
  exists f, p = path_join (node_dir i) f
            /\ (f = "key" \/ f = "key.pub" \/ f = "address" \/ f = "enode").
Proof.
  intros [<-|[<-|[<-|[<-|[]]]]]; eexists; split; try reflexivity; auto.
Qed.

Lemma NoDup_key_paths (ids : list Z) :
  NoDup ids -> Forall (fun i => (0 < i)%Z) ids -> NoDup (flat_map key_paths ids).
Proof.
  induction 1 as [|i ids Hnot ND IH]; intros Hpos; [constructor|].
  inversion Hpos as [|? ? Hi Hpos']; subst. cbn [flat_map].
  apply NoDup_app.
  - unfold key_paths, path_join.
    repeat constructor; cbn [In]; intros Hin;
      repeat (destruct Hin as [Hin|Hin]; [apply app_inv_head in Hin; discriminate Hin|]);
      exact Hin.
  - now apply IH.
  - intros p Hp Hin. apply In_key_paths in Hp as (f & -> & _).
    apply in_flat_map in Hin as (j & Hj & Hin).
    apply In_key_paths in Hin as (f' & E & _).
    apply path_join_inj in E as [E _].
    rewrite Forall_forall in Hpos'.
    apply node_dir_inj in E; [| exact Hi | now apply Hpos'].
    subst j. now apply Hnot.
Qed.

Section Paths.
Context `{EthKeys} `{Configuration}.

Lemma paths_key_files (vs : list validator) :
  map fst (flat_map key_files vs) = flat_map key_paths (map index vs).
Proof. induction vs as [|v vs IH]; [reflexivity|]. cbn. now rewrite IH. Qed.

Lemma paths_artifacts (vs : list validator) (consensus : string) :
  map fst (artifacts vs consensus)
  = (path_join CONFIG_DIR "genesis.json"
     :: flat_map key_paths (map index vs)
     ++ map compose_path (map index vs)
     ++ [compose_path NUM_TOTAL_NODES; ["validators.json"]])%list.
Proof.
  unfold artifacts. cbn [map fst genesis_write].
  rewrite !map_app, paths_key_files, !map_map. reflexivity.
Qed.

(** The files of a run all have different paths: nothing that the run
    writes is overwritten by a later write of the same run. *)
Theorem paths_are_distinct (consensus : string) (t : nat -> Z) (w' : world) :
  main consensus (fresh t) = (Ok tt, w') ->
  NoDup (map fst (files w')).
Proof.
  intros R. destruct (run_validators consensus _ _ R) as (m & En & EN & _ & _ & _ & ->).
  cbn [files with_files fresh app].
  rewrite paths_artifacts, index_generated.
  set (ids := map Z.of_nat (seq 1 (S m))).
  assert (NDis : NoDup ids).
  { apply NoDup_map_on; [intros a b _ _; apply Nat2Z.inj | apply seq_NoDup]. }
  assert (Hpos : Forall (fun i => (0 < i)%Z) ids).
  { apply Forall_forall. intros i Hi. apply in_map_iff in Hi as (k & <- & Hk).
    apply in_seq in Hk. lia. }
  assert (Hmax : forall i, In i ids -> (i < NUM_TOTAL_NODES)%Z).
  { intros i Hi. apply in_map_iff in Hi as (k & <- & Hk). apply in_seq in Hk.
    unfold NUM_TOTAL_NODES. lia. }
  assert (Hkey : forall p, In p (flat_map key_paths ids) -> List.length p = 4).
  { intros p Hp. apply in_flat_map in Hp as (i & _ & Hp).
    apply In_key_paths in Hp as (f & -> & _). reflexivity. }
  assert (Hcmp : forall p, In p (map compose_path ids) -> hd EmptyString p = "docker-compose").
  { intros p Hp. apply in_map_iff in Hp as (i & <- & _). reflexivity. }
  constructor.
  - intros Hin. apply in_app_or in Hin as [Hin|Hin]; [apply Hkey in Hin; discriminate Hin|].
    apply in_app_or in Hin as [Hin|[E|[E|[]]]]; [apply Hcmp in Hin|..]; discriminate.
  - apply NoDup_app.
    + now apply NoDup_key_paths.
    + apply NoDup_app.
      * apply NoDup_map_on; [|exact NDis].
        intros i j Hi Hj. rewrite Forall_forall in Hpos. apply compose_path_inj; now apply Hpos.
      * constructor; [intros [E|[]]; discriminate E|].
        constructor; [intros [] | constructor].
      * intros p Hp [<-|[<-|[]]].
        -- apply in_map_iff in Hp as (i & E & Hi).
           rewrite Forall_forall in Hpos.
           apply compose_path_inj in E; [| now apply Hpos | unfold NUM_TOTAL_NODES; lia].
           apply Hmax in Hi. lia.
        -- apply Hcmp in Hp. discriminate Hp.
    + intros p Hp Hin. apply Hkey in Hp.
      apply in_app_or in Hin as [Hin|[<-|[<-|[]]]]; [|discriminate Hp..].
      apply in_map_iff in Hin as (i & <- & _). discriminate Hp.
Qed.

End Paths.

(** ** The printed guide *)

Section GuideProperties.
Context `{EthKeys} `{Configuration}.

(** The servers' loop from server [a + 1] on: it ends well exactly when
    [NODE_IPS] has an entry for each of them, and has then printed their
    four lines each. *)
Lemma guide_servers_spec (m : nat) : forall (a : nat) (out : console),
  match guide_servers (map (fun k => (1 + Z.of_nat k)%Z) (seq a m)) out with
  | (Ok _, out') =>
      (forall k, a <= k < a + m -> k < List.length NODE_IPS)
      /\ out' = (out ++ flat_map (fun k => server_lines (1 + Z.of_nat k) (host (1 + Z.of_nat k)))
                                 (seq a m))%list
  | (Raise e, out') =>
      e = IndexError /\ List.length NODE_IPS < a + m /\ exists more, out' = (out ++ more)%list
  end.
Proof.
  induction m as [|m IH]; intros a out.
  - cbn. split; [lia | now rewrite app_nil_r].
  - cbn [seq map guide_servers].
    assert (E : Py.index NODE_IPS (1 + Z.of_nat a - 1) = nth_error NODE_IPS a).
    { unfold Py.index.
      replace (0 <=? 1 + Z.of_nat a - 1)%Z with true by (symmetry; apply Z.leb_le; lia).
      f_equal. lia. }
    rewrite E.
    destruct (nth_error NODE_IPS a) as [ip|] eqn:En.
    + specialize (IH (S a) (out ++ server_lines (1 + Z.of_nat a) ip)%list).
      destruct (guide_servers _ _) as [[u|e] out'].
      * destruct IH as (Hlen & ->). split.
        { intros k Hk. destruct (Nat.eq_dec k a) as [->|Hne].
          - apply nth_error_Some. congruence.
          - apply Hlen. lia. }
        cbn [flat_map].
        assert (host (1 + Z.of_nat a) = ip) as ->
          by (unfold host, endpoint; rewrite E; try rewrite En; reflexivity).
        now rewrite <- app_assoc.
      * destruct IH as (-> & Hlen & more & ->). split; [reflexivity|]. split; [lia|].
        eexists. now rewrite <- app_assoc.
    + apply nth_error_None in En. split; [reflexivity|]. split; [lia|].
      exists []. now rewrite app_nil_r.
Qed.


Lemma In_guide_servers (ids : list nat) (k : nat) (l : string) :
  In k ids ->
  In l (server_lines (1 + Z.of_nat k) (host (1 + Z.of_nat k))) ->
  In l (flat_map (fun k => server_lines (1 + Z.of_nat k) (host (1 + Z.of_nat k))) ids).
Proof. intros Hk Hl. apply in_flat_map. now exists k. Qed.

(** After a run that succeeded the guide ends well too.  For every Compose
    file of the run it names the node, the host the file deploys to, and
    the file itself; and it lists a key directory for every node, the RPC
    node included, for which the run has written no file. *)
Theorem guide_after_run (consensus : string) (t : nat -> Z) (w' : world) :
  main consensus (fresh t) = (Ok tt, w') ->
  exists out,
    print_deployment_guide [] = (Ok tt, out)
    /\ (forall c, In c (descriptors (files w')) ->
          In ("   Server " ++ Py.str_of_Z (node c) ++ " (" ++ deploy_to c ++ "):") out
          /\ In ("     - docker-compose/node" ++ Py.str_of_Z (node c) ++ ".yml") out
          /\ In ("     - config/keys/node" ++ Py.str_of_Z (node c) ++ "/") out)
    /\ (forall f c, ~ In (path_join (node_dir NUM_TOTAL_NODES) f, c) (files w')).
Proof.
  intros R. destruct (run_validators consensus _ _ R) as (m & En & EN & Hacc & F & Hrpc & ->).
  cbn [files with_files fresh app].
  set (w := fresh t) in *. set (vs := generated w (S m)) in *.
  assert (Etot : Z.to_nat NUM_TOTAL_NODES = S (S m)) by (unfold NUM_TOTAL_NODES; lia).
  unfold print_deployment_guide, range_from, print in *. cbv zeta in *.
  replace (NUM_TOTAL_NODES + 1 - 1)%Z with NUM_TOTAL_NODES in * by lia.
  match goal with |- context [guide_servers _ ?o] => set (pre := o) in * end.
  pose proof (guide_servers_spec (Z.to_nat NUM_TOTAL_NODES) 0 pre) as S.
  destruct (guide_servers _ pre) as [[[]|e] out'].
  2:{ exfalso. destruct S as (_ & Hlen & _).
      apply Hrpc. unfold endpoint, NUM_TOTAL_NODES, Py.index in *.
      replace (0 <=? NUM_VALIDATORS + 1 - 1)%Z with true by (symmetry; apply Z.leb_le; lia).
      apply nth_error_None. lia. }
  destruct S as (_ & ->). eexists. split; [reflexivity|]. split.
  - assert (Hline : forall k l, k < S (S m) ->
              In l (server_lines (1 + Z.of_nat k) (host (1 + Z.of_nat k))) ->
              In l (pre ++ flat_map (fun k => server_lines (1 + Z.of_nat k)
                                                           (host (1 + Z.of_nat k)))
                                    (seq 0 (Z.to_nat NUM_TOTAL_NODES)))%list).
    { intros k l Hk Hl. apply in_or_app. right.
      apply (In_guide_servers _ k); [apply in_seq; lia | exact Hl]. }
    assert (Hnode : forall c, In c (descriptors (artifacts vs consensus)) ->
              exists k, k < S (S m) /\ node c = (1 + Z.of_nat k)%Z
                        /\ deploy_to c = host (1 + Z.of_nat k)).
    { intros c Hc. rewrite descriptors_artifacts in Hc.
      apply in_app_or in Hc as [Hc|[<-|[]]].
      - apply in_map_iff in Hc as (v & <- & Hv).
        apply In_generated in Hv as (k & Hk & ->). exists k.
        unfold validator_descriptor, ip_of. cbn [node deploy_to identity index].
        replace (Z.of_nat k + 1)%Z with (1 + Z.of_nat k)%Z by lia.
        split; [lia|]. split; reflexivity.
      - exists (S m). cbn [rpc_descriptor node deploy_to]. unfold NUM_TOTAL_NODES.
        replace (NUM_VALIDATORS + 1)%Z with (1 + Z.of_nat (S m))%Z by lia.
        split; [lia|]. split; reflexivity. }
    intros c Hc. destruct (Hnode c Hc) as (k & Hk & -> & ->).
    repeat split; do 7 (apply in_or_app; left); apply (Hline k); try exact Hk.
    + left. reflexivity.
    + do 3 right. left. reflexivity.
    + do 2 right. left. reflexivity.
  - intros f c Hin. unfold artifacts in Hin.
    assert (Hkey : forall v g, In v vs -> path_join (node_dir NUM_TOTAL_NODES) f
                                         <> path_join (node_dir (index v)) g).
    { intros v g Hv E. apply path_join_inj in E as [E _].
      apply In_generated in Hv as (k & Hk & ->). cbn [identity index] in E.
      apply node_dir_inj in E; unfold NUM_TOTAL_NODES in *; lia. }
    destruct Hin as [E|Hin]; [injection E as E _; discriminate E|].
    apply in_app_or in Hin as [Hin|Hin].
    + apply in_flat_map in Hin as (v & Hv & [E|[E|[E|[E|[]]]]]);
        apply (f_equal fst) in E; cbn [fst] in E; symmetry in E;
        exact (Hkey v _ Hv E).
    + apply in_app_or in Hin as [Hin|Hin].
      * apply in_map_iff in Hin as (v & E & _). injection E as E _. discriminate E.
      * destruct Hin as [E|[E|[]]]; injection E as E _; discriminate E.
Qed.

End GuideProperties.

(** ** Entries of [NODE_IPS] that no node uses *)

Section Table.
Context `{EthKeys}.
Variable c : Configuration.
Variable more : list string.

Lemma endpoint_extend (i : Z) :
  (0 < i)%Z -> @endpoint c i <> None ->
  @endpoint (extend_table c more) i = @endpoint c i.
Proof.
  unfold endpoint, Py.index. cbn [NODE_IPS extend_table].
  intros Hi. replace (0 <=? i - 1)%Z with true by (symmetry; apply Z.leb_le; lia).
  intros Hsome. apply nth_error_Some in Hsome. now apply nth_error_app1.
Qed.

Lemma host_extend (i : Z) :
  (0 < i)%Z -> @endpoint c i <> None -> @host (extend_table c more) i = @host c i.
Proof. intros Hi Hsome. unfold host. now rewrite endpoint_extend. Qed.

Lemma artifacts_extend (vs : list validator) (consensus : string) :
  Forall (fun v => (0 < index v)%Z /\ @endpoint c (index v) <> None) vs ->
  @endpoint c 1 <> None ->
  (0 < @NUM_TOTAL_NODES c)%Z -> @endpoint c (@NUM_TOTAL_NODES c) <> None ->
  @artifacts (extend_table c more) vs consensus = @artifacts c vs consensus.
Proof.
  intros F H1 HN Hrpc.
  assert (EA : flat_map (@key_files (extend_table c more)) vs = flat_map (@key_files c) vs).
  { induction F as [|v vs [Hv Hs] _ IH]; [reflexivity|].
    cbn [flat_map]. rewrite IH. f_equal.
    unfold key_files, ip_of. now rewrite host_extend. }
  assert (EB : forall boot,
             map (@validator_compose (extend_table c more) boot consensus) vs
             = map (@validator_compose c boot consensus) vs).
  { intros boot. apply map_ext_in. intros v Hv. rewrite Forall_forall in F.
    destruct (F v Hv) as [Hp Hs].
    unfold validator_compose, validator_descriptor, ip_of. now rewrite host_extend. }
  assert (ER : forall boot,
             @rpc_compose (extend_table c more) boot consensus = @rpc_compose c boot consensus).
  { intros boot. unfold rpc_compose, rpc_descriptor.
    change (@NUM_TOTAL_NODES (extend_table c more)) with (@NUM_TOTAL_NODES c).
    now rewrite host_extend. }
  assert (Hboot : @bootnode_of (extend_table c more) vs = @bootnode_of c vs).
  { destruct vs; [reflexivity|]. unfold bootnode_of. now rewrite host_extend by (lia || assumption). }
  unfold artifacts. now rewrite Hboot, EA, EB, ER.
Qed.

(** A run that succeeds reads only the first [NUM_TOTAL_NODES] entries of
    [NODE_IPS]: with any further entries behind them it ends in the same
    state, file for file. *)
Theorem later_endpoints_are_unused (consensus : string) (w w' : world) :
  @main _ c consensus w = (Ok tt, w') ->
  @main _ (extend_table c more) consensus w = (Ok tt, w').
Proof.
  intros R. destruct (run_validators consensus _ _ R) as (m & En & EN & Hacc & F & Hrpc & ->).
  assert (Fpos : Forall (fun v => (0 < index v)%Z /\ @endpoint c (index v) <> None)
                        (generated w (S m))).
  { apply Forall_forall. intros v Hv. rewrite Forall_forall in F. split; [|now apply F].
    apply In_generated in Hv as (k & _ & ->). cbn. lia. }
  assert (F1 : @endpoint c 1 <> None).
  { rewrite Forall_forall in F. apply (F (identity 0 (draw w 0))). now left. }
  assert (HN : (0 < @NUM_TOTAL_NODES c)%Z) by (unfold NUM_TOTAL_NODES; lia).
  pose proof (@main_spec _ (extend_table c more) consensus w) as S. cbv zeta in S.
  change (@NUM_VALIDATORS (extend_table c more)) with (@NUM_VALIDATORS c) in S.
  change (@NUM_TOTAL_NODES (extend_table c more)) with (@NUM_TOTAL_NODES c) in S.
  rewrite En in S.
  destruct (@main _ (extend_table c more) consensus w) as [[[]|[]] w2].
  - destruct S as (_ & _ & _ & _ & ->). now rewrite artifacts_extend.
  - exfalso. destruct S as (_ & [E|[E|[E|E]]] & _).
    + discriminate E.
    + rewrite endpoint_extend in E by (lia || assumption). now apply F1.
    + apply Exists_exists in E as (v & Hv & E). rewrite Forall_forall in Fpos.
      destruct (Fpos v Hv) as [Hp Hs]. rewrite endpoint_extend in E by assumption.
      now apply Hs.
    + rewrite endpoint_extend in E by assumption. now apply Hrpc.
  - exfalso. destruct S as ((k & Hk & Hrej) & _). now apply (Hacc k Hk).
Qed.

End Table.

(** ** How a run ends *)

Lemma index_in_range {A} (l : list A) (k : Z) :
  Py.index l k <> None <-> (- Z.of_nat (List.length l) <= k < Z.of_nat (List.length l))%Z.
Proof.
  unfold Py.index.
  destruct (Z.leb_spec 0 k) as [Hk|Hk].
  - rewrite nth_error_Some. lia.
  - destruct (Z.leb_spec (- Z.of_nat (List.length l)) k) as [Hk'|Hk'].
    + rewrite nth_error_Some. lia.
    + split; [congruence | lia].
Qed.

Section Outcome.
Context `{EthKeys} `{Configuration}.


(** [save_node_files] on any list of validators: it ends well exactly when
    every validator's index, less one, is an index of [NODE_IPS] as Python
    reads it (from minus the length up to the length), and has then
    written the genesis and four files per validator, in their order; it
    raises nothing but [IndexError]. *)
Theorem save_node_files_outcome (validators : list validator) (consensus : string)
        (w : world) :
  match save_node_files validators consensus w with
  | (Ok p, w') =>
      p = ["config"; "genesis.json"]
      /\ Forall (fun v => (- Z.of_nat (List.length NODE_IPS) <= index v - 1
                           < Z.of_nat (List.length NODE_IPS))%Z) validators
      /\ List.length (files w') = List.length (files w) + 1 + 4 * List.length validators
      /\ map fst (files w')
         = (map fst (files w) ++ ["config"; "genesis.json"]
            :: flat_map key_paths (map index validators))%list
  | (Raise e, w') =>
      e = IndexError
      /\ Exists (fun v => ~ (- Z.of_nat (List.length NODE_IPS) <= index v - 1
                             < Z.of_nat (List.length NODE_IPS))%Z) validators
  end.
Proof.
  pose proof (save_node_files_spec validators consensus w) as S.
  destruct (save_node_files validators consensus w) as [[p|e] w'].
  - destruct S as (-> & F & ->). split; [reflexivity|]. split; [|split].
    + apply Forall_forall. intros v Hv. rewrite Forall_forall in F.
      apply index_in_range. now apply F.
    + cbn [files with_files]. rewrite length_app. cbn [List.length].
      assert (L : List.length (flat_map key_files validators) = 4 * List.length validators).
      { clear. induction validators as [|v vs IH]; [reflexivity|].
        cbn [flat_map]. rewrite length_app, IH. cbn [key_files List.length]. lia. }
      lia.
    + cbn [files with_files]. rewrite map_app. cbn [map fst genesis_write]. do 2 f_equal.
      clear. induction validators as [|v vs IH]; [reflexivity|]. cbn. now rewrite IH.
  - destruct S as (-> & Ex & _). split; [reflexivity|].
    apply Exists_exists in Ex as (v & Hv & E). apply Exists_exists. exists v.
    split; [exact Hv|]. intros Hr. apply index_in_range in Hr. now apply Hr.
Qed.

End Outcome.

(** ** Concrete runs, again *)

Lemma compose_endpoints_witness :
  map node (descriptors (files (snd (@main sample_keys shipped "ibft2" (fresh counting_tape)))))
  = [1; 2; 3; 4; 5]%Z.
Proof.
  apply (@compose_endpoints sample_keys shipped "ibft2" counting_tape). vm_compute. reflexivity.
Defined.


Lemma no_validators_witness :
  @main sample_keys (with_validators 0) "ibft2" (fresh zero_tape)
  = (Raise IndexError,
     with_files (fresh zero_tape) [@genesis_write (with_validators 0) [] "ibft2"]).
Proof.
  apply (@no_validators sample_keys (with_validators 0) "ibft2" (fresh zero_tape)).
  discriminate.
Defined.

Lemma rejected_seed_writes_nothing_witness :
  @main strict_keys shipped "ibft2" (fresh zero_tape)
  = (Raise InvalidKey, advance (fresh zero_tape) 32).
Proof.
  apply (@rejected_seed_writes_nothing strict_keys shipped "ibft2" (fresh zero_tape) 0).
  - cbn. lia.
  - intros j Hj. lia.
  - reflexivity.
Defined.

Lemma generate_reads_only_its_draws_witness :
  fst (@generate_validator_keys sample_keys 2 (fresh counting_tape))
  = fst (@generate_validator_keys sample_keys 2
           (fresh (fun j => if (j <? 64)%nat then counting_tape j else 0%Z))).
Proof.
  apply (@generate_reads_only_its_draws sample_keys 2).
  - reflexivity.
  - intros j Hj. cbn [tape fresh cursor] in *.
    destruct (Nat.ltb_spec j 64) as [_|Hge]; [reflexivity|].
    change (Z.to_nat 2) with 2 in Hj. lia.
Defined.

Lemma key_file_reads_back_witness :
  exists s vs v,
    In (path_join (node_dir 3) "key", Text s)
       (files (snd (@main sample_keys shipped "ibft2" (fresh counting_tape))))
    /\ String.length s = 64
    /\ unhex s = Some (draw (fresh counting_tape) 2)
    /\ In (["validators.json"], ValidatorsJson vs)
          (files (snd (@main sample_keys shipped "ibft2" (fresh counting_tape))))
    /\ nth_error vs 2 = Some v
    /\ index v = 3%Z
    /\ private_key v = "0x" ++ s.
Proof.
  apply (@key_file_reads_back sample_keys shipped "ibft2" counting_tape _ 2).
  - vm_compute. reflexivity.
  - cbn. lia.
Defined.

Lemma paths_are_distinct_witness :
  NoDup (map fst (files (snd (@main sample_keys shipped "ibft2" (fresh counting_tape))))).
Proof.
  apply (@paths_are_distinct sample_keys shipped "ibft2" counting_tape). vm_compute. reflexivity.
Defined.

Lemma guide_after_run_witness :
  exists out,
    @print_deployment_guide shipped [] = (Ok tt, out)
    /\ forall f c,
         ~ In (path_join (node_dir 5) f, c)
              (files (snd (@main sample_keys shipped "ibft2" (fresh counting_tape)))).
Proof.
  assert (R : @main sample_keys shipped "ibft2" (fresh counting_tape)
              = (Ok tt, snd (@main sample_keys shipped "ibft2" (fresh counting_tape))))
    by (vm_compute; reflexivity).
  destruct (@guide_after_run sample_keys shipped "ibft2" counting_tape _ R)
    as (out & G & _ & Hno).
  exists out. split; [exact G | exact Hno].
Defined.

Lemma later_endpoints_are_unused_witness :
  @main sample_keys (extend_table shipped ["192.168.1.16"]) "ibft2" (fresh counting_tape)
  = (Ok tt, snd (@main sample_keys shipped "ibft2" (fresh counting_tape))).
Proof.
  apply (@later_endpoints_are_unused sample_keys shipped ["192.168.1.16"]). vm_compute. reflexivity.
Defined.
